(** * ODL / ASTRA set-up helpers: a shallow embedding of
      [odl/tomo/backends/astra_setup.py] and the properties of its
      geometry translation, data binding and algorithm configuration. *)

From Stdlib Require Import ZArith List Ascii String Floats.
From stdpp Require Import gmap strings list.

Open Scope string_scope.
Open Scope list_scope.
Open Scope Z_scope.

(** ** Python values, exceptions and results *)

(** Exception classes raised by the module.  [UnknownFeature] is the error
    the specification names for a feature missing from the capability
    matrix. *)
Inductive exn_class :=
  | TypeError
  | ValueError
  | NotImplementedError
  | IndexError
  | KeyError
  | UnknownFeature.

(** A raised exception: its class and the message template of the [raise]
    statement (the text before [str.format] fills it in). *)
Record exn := Raise { exn_cls : exn_class; exn_msg : string }.

Inductive result (A : Type) :=
  | Ok (a : A)
  | Err (e : exn).
Arguments Ok {A} a.
Arguments Err {A} e.

Definition bind {A B} (r : result A) (k : A -> result B) : result B :=
  match r with
  | Ok a => k a
  | Err e => Err e
  end.

Notation "x <- r ;; k" := (bind r (fun x => k))
  (at level 100, r at next level, right associativity).

Definition is_ok {A} (r : result A) : bool :=
  match r with Ok _ => true | Err _ => false end.

(** Values stored in the dictionaries handed to the engine. *)
#[warnings="-register-all"]
Inductive PyVal :=
  | VNone
  | VBool (b : bool)
  | VInt (n : Z)
  | VFloat (x : float)
  | VStr (s : string)
  | VArray (a : list float)
  | VMatrix (m : list (list float))
  | VDict (d : gmap string PyVal).

Abbreviation pydict := (gmap string PyVal).

(** [seq[i]] for a constant, non-negative index. *)
Definition getitem {A} (l : list A) (i : nat) : result A :=
  match l !! i with
  | Some x => Ok x
  | None => Err (Raise IndexError "index out of range")
  end.

(** ** The discretized space and its partition (external collaborators) *)

Record RectPartition := {
  shape : list Z;
  min_pt : list float;
  max_pt : list float;
  cell_sides : list float;
  is_uniform : bool;
  has_isotropic_cells : bool
}.

Record DiscreteLp := {
  lp_partition : RectPartition;
  lp_is_uniform : bool;
  lp_ndim : Z
}.

(** What a caller may pass as [discr_reco]. *)
Inductive DiscrArg :=
  | IsDiscreteLp (d : DiscreteLp)
  | NotDiscreteLp.

(** A grid whose partition has one entry per axis. *)
Definition grid_wf (d : DiscreteLp) : Prop :=
  Z.of_nat (length (shape (lp_partition d))) = lp_ndim d /\
  Z.of_nat (length (min_pt (lp_partition d))) = lp_ndim d /\
  Z.of_nat (length (max_pt (lp_partition d))) = lp_ndim d.

(** ** The feature matrix *)

(** A dictionary value of [ASTRA_FEATURES]: [None], one requirement string
    (possibly a comma-separated conjunction), or a sequence of them. *)
Inductive FeatureReq :=
  | ReqNone
  | ReqStr (s : string)
  | ReqSeq (l : list string).

Definition ASTRA_FEATURES : gmap string FeatureReq :=
  <["anisotropic_voxels_2d" := ReqNone]>
  (<["anisotropic_voxels_3d" := ReqStr ">=1.8"]>
  (<["parallel2d_vec_geometry" := ReqNone]>
  (<["cone2d_density_weighting" := ReqNone]>
  (<["cone3d_hacky_density_weighting" := ReqStr ">=1.8"]>
  (<["cone3d_density_weighting" := ReqNone]>
  (<["par3d_det_mid_pt_perp_to_axis" := ReqStr ">=1.7.2"]>
  (<["gpulink" := ReqNone]> ∅))))))).

(** [astra.create_vol_geom]: the engine's descriptor constructor.  The
    positional arguments are (row count, column count, [slice count,] then
    the window bounds min/max for X, Y [, Z]), as the comments of
    [astra_volume_geometry] record; the counts are entries of the
    descriptor itself, the window bounds entries of the dictionary it
    holds under ['option']. *)
Definition create_vol_geom (args : list PyVal) : result pydict :=
  match args with
  | [r; c; x0; x1; y0; y1] =>
      Ok (<["GridRowCount" := r]> (<["GridColCount" := c]>
         (<["option" :=
              VDict (<["WindowMinX" := x0]> (<["WindowMaxX" := x1]>
                    (<["WindowMinY" := y0]> (<["WindowMaxY" := y1]> ∅))))]>
          ∅)))
  | [r; c; s; x0; x1; y0; y1; z0; z1] =>
      Ok (<["GridRowCount" := r]> (<["GridColCount" := c]>
         (<["GridSliceCount" := s]>
         (<["option" :=
              VDict (<["WindowMinX" := x0]> (<["WindowMaxX" := x1]>
                    (<["WindowMinY" := y0]> (<["WindowMaxY" := y1]>
                    (<["WindowMinZ" := z0]> (<["WindowMaxZ" := z1]> ∅))))))]>
          ∅))))
  | _ => Err (Raise ValueError "create_vol_geom: unsupported argument count")
  end.

(** Modelled from the spec: [odl.util.utility.pkg_supports], which is not
    part of the sources at hand.  A feature mapped to "unsupported in any
    version" is never supported; a single constraint (or conjunction) is
    evaluated against the version; a sequence is supported when one of its
    members is; an unknown name fails with [UnknownFeature].  The
    evaluation of one requirement string against a version
    ([pkg_resources]) is the argument [version_satisfies]. *)
Definition pkg_supports_spec (version_satisfies : string -> string -> bool)
    (feature version : string) (feat_dict : gmap string FeatureReq)
    : result bool :=
  match feat_dict !! feature with
  | None => Err (Raise UnknownFeature "unknown feature")
  | Some ReqNone => Ok false
  | Some (ReqStr s) => Ok (version_satisfies version s)
  | Some (ReqSeq l) => Ok (existsb (version_satisfies version) l)
  end.

Section Capability.

(** The detected engine version, and [pkg_supports] of
    [odl.util.utility], imported by the module. *)
Variable ASTRA_VERSION : string.
Variable pkg_supports :
  string -> string -> gmap string FeatureReq -> result bool.

Definition astra_supports (feature : string) : result bool :=
  pkg_supports feature ASTRA_VERSION ASTRA_FEATURES.

(** ** Volume geometry *)

Definition astra_volume_geometry (discr_reco : DiscrArg) : result pydict :=
  match discr_reco with
  | NotDiscreteLp =>
      Err (Raise TypeError "`discr_reco` {!r} is not a DiscreteLp instance")
  | IsDiscreteLp d =>
      if negb (lp_is_uniform d) then
        Err (Raise ValueError "`discr_reco` {} is not uniformly discretized")
      else
        let vol_shp := shape (lp_partition d) in
        let vol_min := min_pt (lp_partition d) in
        let vol_max := max_pt (lp_partition d) in
        if lp_ndim d =? 2 then
          (* [not isotropic and not astra_supports(...)], short-circuit *)
          unsupported <-
            (if negb (has_isotropic_cells (lp_partition d)) then
               s <- astra_supports "anisotropic_voxels_2d";; Ok (negb s)
             else Ok false);;
          if (unsupported : bool) then
            Err (Raise NotImplementedError
              "non-isotropic pixels in 2d volumes not supported by ASTRA v{}")
          else
            s1 <- getitem vol_shp 1;;
            s0 <- getitem vol_shp 0;;
            a0 <- getitem vol_min 0;;
            b0 <- getitem vol_max 0;;
            a1 <- getitem vol_min 1;;
            b1 <- getitem vol_max 1;;
            create_vol_geom [VInt s1; VInt s0;
                             VFloat a0; VFloat b0; VFloat a1; VFloat b1]
        else if lp_ndim d =? 3 then
          unsupported <-
            (if negb (has_isotropic_cells (lp_partition d)) then
               s <- astra_supports "anisotropic_voxels_3d";; Ok (negb s)
             else Ok false);;
          if (unsupported : bool) then
            Err (Raise NotImplementedError
              "non-isotropic voxels in 3d volumes not supported by ASTRA v{}")
          else
            s1 <- getitem vol_shp 1;;
            s2 <- getitem vol_shp 2;;
            s0 <- getitem vol_shp 0;;
            a2 <- getitem vol_min 2;;
            b2 <- getitem vol_max 2;;
            a1 <- getitem vol_min 1;;
            b1 <- getitem vol_max 1;;
            a0 <- getitem vol_min 0;;
            b0 <- getitem vol_max 0;;
            create_vol_geom [VInt s1; VInt s2; VInt s0;
                             VFloat a2; VFloat b2; VFloat a1; VFloat b1;
                             VFloat a0; VFloat b0]
        else
          Err (Raise ValueError
            "{}-dimensional volume geometries not supported by ASTRA")
  end.

(** ** Acquisition geometries (external collaborators) *)

Inductive BeamClass :=
  | ParallelBeamGeometry
  | DivergentBeamGeometry
  | OtherBeamGeometry.

Inductive DetectorClass :=
  | FlatDetector
  | OtherDetector.

Record Detector := {
  det_class : DetectorClass;
  det_size : Z
}.

(** The read-only part of a [Geometry] instance: its class, its detector,
    its angles and the per-angle queries the builders call.  Points and
    directions are NumPy vectors, [det_axes] is a pair of them. *)
Record Geometry := {
  beam_class : BeamClass;
  detector : Detector;
  ndim : Z;
  angles : list float;
  det_params_mid_pt : list float;
  det_partition : RectPartition;
  src_position : float -> list float;
  det_point_position : float -> list float -> list float;
  det_axes : float -> list float * list float;
  det_axis : float -> list float;
  det_to_src : float -> list float -> list float
}.

(** ** NumPy array operations used by the builders *)

Abbreviation matrix := (list (list float)).

(** [np.zeros((n, k))] *)
Definition np_zeros (n k : nat) : matrix :=
  replicate n (replicate k PrimFloat.zero).

(** [v * s] for a vector [v] and a scalar [s] *)
Definition scale (v : list float) (s : float) : list float :=
  map (fun x => PrimFloat.mul x s) v.

(** [-v] *)
Definition negate (v : list float) : list float :=
  map PrimFloat.opp v.

(** The value written by [row[lo:hi] = v]: [v] itself when the lengths
    agree, a length-one [v] broadcast over the slice, an error otherwise. *)
Definition broadcast_to (n : nat) (v : list float) : result (list float) :=
  if decide (length v = n) then Ok v
  else match v with
       | [x] => Ok (replicate n x)
       | _ => Err (Raise ValueError "could not broadcast input array")
       end.

(** [vectors[i, lo:hi] = v] *)
Definition setitem_slice (vectors : matrix) (i lo hi : nat)
    (v : list float) : result matrix :=
  match vectors !! i with
  | None => Err (Raise IndexError "index out of bounds")
  | Some row =>
      w <- broadcast_to (hi - lo) v;;
      Ok (<[i := take lo row ++ w ++ drop hi row]> vectors)
  end.

(** [row[ind]] with an index list (fancy indexing of one row) *)
Fixpoint take_columns (row : list float) (ind : list nat)
    : result (list float) :=
  match ind with
  | [] => Ok []
  | j :: ind' =>
      x <- getitem row j;;
      xs <- take_columns row ind';;
      Ok (x :: xs)
  end.

(** [vectors[:, ind]] *)
Fixpoint getitem_columns (vectors : matrix) (ind : list nat)
    : result matrix :=
  match vectors with
  | [] => Ok []
  | row :: rest =>
      r <- take_columns row ind;;
      rs <- getitem_columns rest ind;;
      Ok (r :: rs)
  end.

(** [for ang_idx, angle in enumerate(angles): body], threading the array
    that the body updates in place. *)
Fixpoint for_enumerate (body : nat -> float -> matrix -> result matrix)
    (ang_idx : nat) (angs : list float) (vectors : matrix)
    : result matrix :=
  match angs with
  | [] => Ok vectors
  | angle :: rest =>
      vectors' <- body ang_idx angle vectors;;
      for_enumerate body (S ang_idx) rest vectors'
  end.

(** [newind = []; for i in range(4): newind += [2+3i, 1+3i, 0+3i]] *)
Definition newind : list nat :=
  fold_left (fun acc i => acc ++ [2 + 3 * i; 1 + 3 * i; 0 + 3 * i]%nat)
            (seq 0 4) [].

(** ** Vector builders *)

Definition conebeam_3d_body (geometry : Geometry)
    (ang_idx : nat) (angle : float) (vectors : matrix) : result matrix :=
  vectors <- setitem_slice vectors ang_idx 0 3 (src_position geometry angle);;
  let mid_pt := det_params_mid_pt geometry in
  vectors <- setitem_slice vectors ang_idx 3 6
               (det_point_position geometry angle mid_pt);;
  let det_axes := det_axes geometry angle in
  let px_sizes := cell_sides (det_partition geometry) in
  p0 <- getitem px_sizes 0;;
  vectors <- setitem_slice vectors ang_idx 6 9 (scale (fst det_axes) p0);;
  p1 <- getitem px_sizes 1;;
  setitem_slice vectors ang_idx 9 12 (scale (snd det_axes) p1).

Definition astra_conebeam_3d_geom_to_vec (geometry : Geometry)
    : result matrix :=
  let angles := angles geometry in
  let vectors := np_zeros (length angles) 12 in
  vectors <- for_enumerate (conebeam_3d_body geometry) 0 angles vectors;;
  getitem_columns vectors newind.

Definition conebeam_2d_body (geometry : Geometry)
    (ang_idx : nat) (angle : float) (vectors : matrix) : result matrix :=
  vectors <- setitem_slice vectors ang_idx 0 2 (src_position geometry angle);;
  let mid_pt := det_params_mid_pt geometry in
  vectors <- setitem_slice vectors ang_idx 2 4
               (det_point_position geometry angle mid_pt);;
  let det_axis := det_axis geometry angle in
  px_size <- getitem (cell_sides (det_partition geometry)) 0;;
  setitem_slice vectors ang_idx 4 6 (scale det_axis px_size).

Definition astra_conebeam_2d_geom_to_vec (geometry : Geometry)
    : result matrix :=
  let angles := angles geometry in
  let vectors := np_zeros (length angles) 6 in
  for_enumerate (conebeam_2d_body geometry) 0 angles vectors.

Definition parallel_3d_body (geometry : Geometry)
    (ang_idx : nat) (angle : float) (vectors : matrix) : result matrix :=
  let mid_pt := det_params_mid_pt geometry in
  vectors <- setitem_slice vectors ang_idx 0 3
               (negate (det_to_src geometry angle mid_pt));;
  vectors <- setitem_slice vectors ang_idx 3 6
               (det_point_position geometry angle mid_pt);;
  let det_axes := det_axes geometry angle in
  let px_sizes := cell_sides (det_partition geometry) in
  p0 <- getitem px_sizes 0;;
  vectors <- setitem_slice vectors ang_idx 6 9 (scale (fst det_axes) p0);;
  p1 <- getitem px_sizes 1;;
  setitem_slice vectors ang_idx 9 12 (scale (snd det_axes) p1).

Definition astra_parallel_3d_geom_to_vec (geometry : Geometry)
    : result matrix :=
  let angles := angles geometry in
  let vectors := np_zeros (length angles) 12 in
  vectors <- for_enumerate (parallel_3d_body geometry) 0 angles vectors;;
  let new_ind := newind in
  getitem_columns vectors new_ind.

(** ** Stateful code: a state-and-error monad *)

Definition M (S A : Type) : Type := S -> result A * S.

Definition ret {S A} (a : A) : M S A := fun s => (Ok a, s).

Definition raise {S A} (c : exn_class) (msg : string) : M S A :=
  fun s => (Err (Raise c msg), s).

Definition lift {S A} (r : result A) : M S A := fun s => (r, s).

Definition mbind {S A B} (m : M S A) (k : A -> M S B) : M S B :=
  fun s =>
    match m s with
    | (Ok a, s') => k a s'
    | (Err e, s') => (Err e, s')
    end.

Notation "x <~ m ;; k" := (mbind m (fun x => k))
  (at level 100, m at next level, right associativity).

(** ** Projection geometry *)

Definition all_rows_have (k : nat) (m : matrix) : bool :=
  forallb (fun r => Nat.eqb (length r) k) m.

(** [astra.create_proj_geom] for the four geometry types the module
    requests; the vector variants check the width of the array. *)
Definition create_proj_geom (intype : string) (args : list PyVal)
    : result pydict :=
  let bad := Err (Raise ValueError "create_proj_geom: bad arguments") in
  if String.eqb intype "parallel" then
    match args with
    | [w; c; a] =>
        Ok (<["type" := VStr "parallel"]> (<["DetectorWidth" := w]>
           (<["DetectorCount" := c]> (<["ProjectionAngles" := a]> ∅))))
    | _ => bad
    end
  else if String.eqb intype "fanflat_vec" then
    match args with
    | [c; VMatrix v] =>
        if all_rows_have 6 v then
          Ok (<["type" := VStr "fanflat_vec"]> (<["DetectorCount" := c]>
             (<["Vectors" := VMatrix v]> ∅)))
        else bad
    | _ => bad
    end
  else if String.eqb intype "parallel3d_vec" || String.eqb intype "cone_vec"
  then
    match args with
    | [r; c; VMatrix v] =>
        if all_rows_have 12 v then
          Ok (<["type" := VStr intype]> (<["DetectorRowCount" := r]>
             (<["DetectorColCount" := c]> (<["Vectors" := VMatrix v]> ∅))))
        else bad
    | _ => bad
    end
  else bad.

(** The mutable companion of a geometry: its [implementation_cache], and a
    counter log of the builder and descriptor-constructor invocations made
    on its behalf. *)
Record GeomState := {
  implementation_cache : gmap string pydict;
  calls : list string
}.

Definition log_call (name : string) : M GeomState unit :=
  fun s => (Ok tt, {| implementation_cache := implementation_cache s;
                      calls := calls s ++ [name] |}).

Definition cache_get (key : string) : M GeomState (option pydict) :=
  fun s => (Ok (implementation_cache s !! key), s).

Definition cache_set (key : string) (v : pydict) : M GeomState unit :=
  fun s => (Ok tt, {| implementation_cache := <[key := v]> (implementation_cache s);
                      calls := calls s |}).

(** What a caller may pass as [geometry]. *)
Inductive GeomArg :=
  | IsGeometry (g : Geometry)
  | NotGeometry.

Definition is_parallel (g : Geometry) : bool :=
  match beam_class g with ParallelBeamGeometry => true | _ => false end.

Definition is_divergent (g : Geometry) : bool :=
  match beam_class g with DivergentBeamGeometry => true | _ => false end.

Definition is_flat (g : Geometry) : bool :=
  match det_class (detector g) with FlatDetector => true | _ => false end.

Definition astra_projection_geometry (geometry : GeomArg)
    : M GeomState pydict :=
  match geometry with
  | NotGeometry =>
      raise TypeError "`geometry` {!r} is not a `Geometry` instance"
  | IsGeometry g =>
      cached <~ cache_get "astra";;
      match cached with
      | Some proj_geom => ret proj_geom
      | None =>
          if negb (is_uniform (det_partition g)) then
            raise ValueError "non-uniform detector sampling is not supported"
          else
            proj_geom <~
              (if is_parallel g && is_flat g && (ndim g =? 2) then
                 det_width <~ lift (getitem (cell_sides (det_partition g)) 0);;
                 let det_count := det_size (detector g) in
                 let angles := angles g in
                 _ <~ log_call "create_proj_geom";;
                 lift (create_proj_geom "parallel"
                         [VFloat det_width; VInt det_count; VArray angles])
               else if is_divergent g && is_flat g && (ndim g =? 2) then
                 let det_count := det_size (detector g) in
                 _ <~ log_call "astra_conebeam_2d_geom_to_vec";;
                 vec <~ lift (astra_conebeam_2d_geom_to_vec g);;
                 _ <~ log_call "create_proj_geom";;
                 lift (create_proj_geom "fanflat_vec"
                         [VInt det_count; VMatrix vec])
               else if is_parallel g && is_flat g && (ndim g =? 3) then
                 det_row_count <~ lift (getitem (shape (det_partition g)) 1);;
                 det_col_count <~ lift (getitem (shape (det_partition g)) 0);;
                 _ <~ log_call "astra_parallel_3d_geom_to_vec";;
                 vec <~ lift (astra_parallel_3d_geom_to_vec g);;
                 _ <~ log_call "create_proj_geom";;
                 lift (create_proj_geom "parallel3d_vec"
                         [VInt det_row_count; VInt det_col_count; VMatrix vec])
               else if is_divergent g && is_flat g && (ndim g =? 3) then
                 det_row_count <~ lift (getitem (shape (det_partition g)) 1);;
                 det_col_count <~ lift (getitem (shape (det_partition g)) 0);;
                 _ <~ log_call "astra_conebeam_3d_geom_to_vec";;
                 vec <~ lift (astra_conebeam_3d_geom_to_vec g);;
                 _ <~ log_call "create_proj_geom";;
                 lift (create_proj_geom "cone_vec"
                         [VInt det_row_count; VInt det_col_count; VMatrix vec])
               else
                 raise NotImplementedError "unknown ASTRA geometry type {!r}");;
            cached <~ cache_get "astra";;
            _ <~ (match cached with
                  | None => cache_set "astra" proj_geom
                  | Some _ => ret tt
                  end);;
            ret proj_geom
      end
  end.

(** ** Host arrays and the engine's object tables *)

Inductive Dtype :=
  | Float32
  | Float64.

(** A NumPy array in host memory.  Element values are kept as they are;
    the rounding of a cast to single precision is not modelled. *)
Record ndarray := {
  dtype : Dtype;
  arr_ndim : Z;
  c_contiguous : bool;
  aligned : bool;
  values : list float
}.

(** Where an engine data object keeps its numbers: in a host array it was
    linked to (by address), or in a buffer of its own. *)
Inductive Storage :=
  | Linked (addr : nat)
  | Owned.

Record DataObj := {
  data_dim : Z;
  data_kind : string;
  data_geom : pydict;
  data_storage : Storage
}.

(** Host memory (arrays by address) and the engine's tables; a handle is
    the position of the object in its table. *)
Record Machine := {
  heap : list ndarray;
  data_objs : list DataObj;
  projector_objs : list (Z * pydict);
  algorithm_objs : list pydict
}.

Definition set_heap (h : list ndarray) (m : Machine) : Machine :=
  {| heap := h; data_objs := data_objs m;
     projector_objs := projector_objs m; algorithm_objs := algorithm_objs m |}.

Definition add_data (o : DataObj) : M Machine Z :=
  fun m => (Ok (Z.of_nat (length (data_objs m))),
            {| heap := heap m; data_objs := data_objs m ++ [o];
               projector_objs := projector_objs m;
               algorithm_objs := algorithm_objs m |}).

Definition add_projector (dim : Z) (cfg : pydict) : M Machine Z :=
  fun m => (Ok (Z.of_nat (length (projector_objs m))),
            {| heap := heap m; data_objs := data_objs m;
               projector_objs := projector_objs m ++ [(dim, cfg)];
               algorithm_objs := algorithm_objs m |}).

Definition add_algorithm (cfg : pydict) : M Machine Z :=
  fun m => (Ok (Z.of_nat (length (algorithm_objs m))),
            {| heap := heap m; data_objs := data_objs m;
               projector_objs := projector_objs m;
               algorithm_objs := algorithm_objs m ++ [cfg] |}).

Definition read_array (p : nat) : M Machine ndarray :=
  fun m => match heap m !! p with
           | Some a => (Ok a, m)
           | None => (Err (Raise ValueError "dangling array reference"), m)
           end.

(** [np.asarray(a, dtype='float32', order='C')]: the array itself when it
    already is single precision and C-contiguous, a new array otherwise. *)
Definition np_asarray_float32_C (p : nat) : M Machine nat :=
  a <~ read_array p;;
  match dtype a with
  | Float32 =>
      if c_contiguous a then ret p
      else fun m =>
        (Ok (length (heap m)),
         set_heap (heap m ++ [{| dtype := Float32; arr_ndim := arr_ndim a;
                                 c_contiguous := true; aligned := true;
                                 values := values a |}]) m)
  | Float64 =>
      fun m =>
        (Ok (length (heap m)),
         set_heap (heap m ++ [{| dtype := Float32; arr_ndim := arr_ndim a;
                                 c_contiguous := true; aligned := true;
                                 values := values a |}]) m)
  end.

(** [astra.data2d.link] / [astra.data3d.link]: the engine wraps the host
    array without copying; it insists on an aligned, C-contiguous,
    single-precision array. *)
Definition engine_link (dim : Z) (kind : string) (geom : pydict) (p : nat)
    : M Machine Z :=
  a <~ read_array p;;
  match dtype a with
  | Float32 =>
      if c_contiguous a && aligned a then
        add_data {| data_dim := dim; data_kind := kind; data_geom := geom;
                    data_storage := Linked p |}
      else raise ValueError "numpy array should be C_CONTIGUOUS and ALIGNED"
  | Float64 => raise ValueError "numpy array should be float32"
  end.

(** [astra.data2d.create] / [astra.data3d.create] *)
Definition engine_create (dim : Z) (kind : string) (geom : pydict)
    : M Machine Z :=
  add_data {| data_dim := dim; data_kind := kind; data_geom := geom;
              data_storage := Owned |}.

(** The engine writes [vals] into the buffer behind a data handle.  For a
    linked object that buffer is the host array. *)
Definition engine_write (h : Z) (vals : list float) (m : Machine) : Machine :=
  match data_objs m !! Z.to_nat h with
  | Some o =>
      match data_storage o with
      | Linked p =>
          match heap m !! p with
          | Some a =>
              set_heap (<[p := {| dtype := dtype a; arr_ndim := arr_ndim a;
                                  c_contiguous := c_contiguous a;
                                  aligned := aligned a;
                                  values := vals |}]> (heap m)) m
          | None => m
          end
      | Owned => m
      end
  | None => m
  end.

(** What a caller may pass as [data]: nothing, a NumPy array, a
    [DiscreteLpElement] (with the implementation name of its [ntuple] and
    the array its [asarray()] hands out), or some other object. *)
Inductive DataArg :=
  | DataNone
  | DataNdarray (p : nat)
  | DataLpElement (impl : string) (p : nat)
  | DataOther.

Definition astra_data (astra_geom : pydict) (datatype : string)
    (data : DataArg) (ndim : Z) (allow_copy : bool) : M Machine Z :=
  ndim <~ (match data with
           | DataNdarray p | DataLpElement _ p =>
               a <~ read_array p;; ret (arr_ndim a)
           | DataOther =>
               raise TypeError
                 "`data` {!r} is neither DiscreteLpElement instance nor a `numpy.ndarray`"
           | DataNone => ret ndim
           end);;
  astra_dtype_str <~
    (if String.eqb datatype "volume" then ret "-vol"
     else if String.eqb datatype "projection" then ret "-sino"
     else raise ValueError "`datatype` {!r} not understood");;
  (* [link] and [create] of [astra.data2d] or [astra.data3d] *)
  module_dim <~
    (if ndim =? 2 then ret 2
     else if ndim =? 3 then ret 3
     else raise ValueError "{}-dimensional data structures not supported");;
  match data with
  | DataNone => engine_create module_dim astra_dtype_str astra_geom
  | DataOther =>
      (* not reached: rejected by the type check above *)
      raise TypeError
        "`data` {!r} is neither DiscreteLpElement instance nor a `numpy.ndarray`"
  | DataNdarray p =>
      if allow_copy then
        data_array <~ np_asarray_float32_C p;;
        engine_link module_dim astra_dtype_str astra_geom data_array
      else
        engine_link module_dim astra_dtype_str astra_geom p
  | DataLpElement impl p =>
      if allow_copy then
        data_array <~ np_asarray_float32_C p;;
        engine_link module_dim astra_dtype_str astra_geom data_array
      else if String.eqb impl "numpy" then
        engine_link module_dim astra_dtype_str astra_geom p
      else
        raise NotImplementedError
          "ASTRA supports data wrapping only for `numpy.ndarray` instances, got {!r}"
  end.

(** ** Projector and algorithm configuration *)

Definition lower_ascii (c : ascii) : ascii :=
  let n := nat_of_ascii c in
  if (65 <=? n)%nat && (n <=? 90)%nat then ascii_of_nat (n + 32) else c.

(** [str.lower] on ASCII text *)
Fixpoint lower (s : string) : string :=
  match s with
  | EmptyString => EmptyString
  | String c r => String (lower_ascii c) (lower r)
  end.

(** [s in (a, b, ...)] for strings: comparison by value *)
Definition str_in (s : string) (l : list string) : bool :=
  existsb (String.eqb s) l.

(** [d[k]] *)
Definition dict_getitem {K V} `{Countable K} (d : gmap K V) (k : K)
    : result V :=
  match d !! k with
  | Some v => Ok v
  | None => Err (Raise KeyError "key not found")
  end.

(** [d[new] = d[old]] on a table of constants *)
Definition alias {V} (new old : string) (d : gmap string V)
    : gmap string V :=
  match d !! old with
  | Some v => <[new := v]> d
  | None => d
  end.

Definition type_map_cpu : gmap string (gmap string string) :=
  alias "cone_vec" "cone"
  (alias "parallel3d_vec" "parallel3d"
  (alias "fanflat_vec" "fanflat"
  (<["parallel" := <["nearest" := "line"]> (<["linear" := "linear"]> ∅)]>
  (<["fanflat" := <["nearest" := "line_fanflat"]>
                  (<["linear" := "line_fanflat"]> ∅)]>
  (<["parallel3d" := <["nearest" := "linear3d"]>
                     (<["linear" := "linear3d"]> ∅)]>
  (<["cone" := <["nearest" := "linearcone"]>
               (<["linear" := "linearcone"]> ∅)]> ∅)))))).

Definition type_map_cuda : gmap string string :=
  alias "cone_vec" "cone"
  (alias "parallel3d_vec" "parallel3d"
  (alias "cone" "parallel3d"
  (alias "fanflat_vec" "fanflat"
  (alias "fanflat" "parallel"
  (<["parallel" := "cuda"]> (<["parallel3d" := "cuda3d"]> ∅)))))).

Definition astra_projector (vol_interp : string)
    (astra_vol_geom astra_proj_geom : pydict) (ndim : Z) (impl : string)
    : M Machine Z :=
  if negb (str_in vol_interp ["nearest"; "linear"]) then
    raise ValueError "`vol_interp` '{}' not understood"
  else
  let impl := lower impl in
  if negb (str_in impl ["cpu"; "cuda"]) then
    raise ValueError "`impl` '{}' not understood"
  else
  match astra_proj_geom !! "type" with
  | None => raise ValueError "invalid projection geometry dict {}"
  | Some proj_type =>
      if (ndim =? 3) && String.eqb impl "cpu" then
        raise ValueError "3D projectors not supported on CPU"
      else
      match proj_type with
      | VStr proj_type =>
          if negb (str_in proj_type
                     ["parallel"; "fanflat"; "fanflat_vec"; "parallel3d";
                      "parallel3d_vec"; "cone"; "cone_vec"]) then
            raise ValueError "invalid geometry type {!r}"
          else
            cfg_type <~ lift
              (if String.eqb impl "cpu" then
                 by_interp <- dict_getitem type_map_cpu proj_type;;
                 dict_getitem by_interp vol_interp
               else dict_getitem type_map_cuda proj_type);;
            weighting <~ lift
              (if str_in proj_type ["cone"; "cone_vec"] then
                 astra_supports "cone3d_hacky_density_weighting"
               else Ok false);;
            let options : pydict :=
              if (weighting : bool)
              then <["DensityWeighting" := VBool true]> ∅ else ∅ in
            let proj_cfg : pydict :=
              <["type" := VStr cfg_type]>
              (<["VolumeGeometry" := VDict astra_vol_geom]>
              (<["ProjectionGeometry" := VDict astra_proj_geom]>
              (<["options" := VDict options]> ∅))) in
            if ndim =? 2 then add_projector 2 proj_cfg
            else add_projector 3 proj_cfg
      | _ => raise ValueError "invalid geometry type {!r}"
      end
  end.

(** A Python string object.  Identifier-like literals of the module are
    interned, one object per text; a string computed at run time lives at
    an address of its own, whatever its text. *)
Inductive StrObj :=
  | Interned (s : string)
  | Allocated (addr : nat) (s : string).

Definition str_value (o : StrObj) : string :=
  match o with
  | Interned s => s
  | Allocated _ s => s
  end.

(** [a is b]: object identity *)
Definition py_is (a b : StrObj) : bool :=
  match a, b with
  | Interned s, Interned t => String.eqb s t
  | Allocated p _, Allocated q _ => Nat.eqb p q
  | _, _ => false
  end.

(** [a == b]: equality of the texts *)
Definition py_eq (a b : StrObj) : bool :=
  String.eqb (str_value a) (str_value b).

(** [x in (a, b, ...)]: identity or equality with a member *)
Definition obj_in (x : StrObj) (l : list StrObj) : bool :=
  existsb (fun y => py_is x y || py_eq x y) l.

Definition algo_map : gmap string (gmap Z (gmap string PyVal)) :=
  <["forward" :=
      <[2 := <["cpu" := VStr "FP"]> (<["cuda" := VStr "FP_CUDA"]> ∅)]>
      (<[3 := <["cpu" := VNone]> (<["cuda" := VStr "FP3D_CUDA"]> ∅)]> ∅)]>
  (<["backward" :=
      <[2 := <["cpu" := VStr "BP"]> (<["cuda" := VStr "BP_CUDA"]> ∅)]>
      (<[3 := <["cpu" := VNone]> (<["cuda" := VStr "BP3D_CUDA"]> ∅)]> ∅)]>
   ∅).

Definition id_val (i : option Z) : PyVal :=
  match i with
  | Some n => VInt n
  | None => VNone
  end.

Definition astra_algorithm (direction : StrObj) (ndim : Z)
    (vol_id sino_id : Z) (proj_id : option Z) (impl : string)
    : M Machine Z :=
  if negb (obj_in direction [Interned "forward"; Interned "backward"]) then
    raise ValueError "`direction` '{}' not understood"
  else if negb ((ndim =? 2) || (ndim =? 3)) then
    raise ValueError "{}-dimensional projectors not supported"
  else if negb (str_in impl ["cpu"; "cuda"]) then
    raise ValueError "`impl` type '{}' not understood"
  else if (ndim =? 3) && String.eqb impl "cpu" then
    raise NotImplementedError "3d algorithms for CPU not supported by ASTRA"
  else if match proj_id with None => String.eqb impl "cpu" | Some _ => false end
  then
    raise ValueError "'cpu' implementation requires projector ID"
  else
    algo_type <~ lift
      (by_dim <- dict_getitem algo_map (str_value direction);;
       by_impl <- dict_getitem by_dim ndim;;
       dict_getitem by_impl impl);;
    let algo_cfg : pydict :=
      <["type" := algo_type]>
      (<["ProjectorId" := id_val proj_id]>
      (<["ProjectionDataId" := VInt sino_id]> ∅)) in
    let algo_cfg :=
      if py_is direction (Interned "forward")
      then <["VolumeDataId" := VInt vol_id]> algo_cfg
      else <["ReconstructionDataId" := VInt vol_id]> algo_cfg in
    add_algorithm algo_cfg.

(** ** Specification-side definitions *)

(** The rows in the natural (x, y, z) ordering, as the specification
    describes them. *)
Definition px_size (g : Geometry) (i : nat) : float :=
  nth i (cell_sides (det_partition g)) PrimFloat.zero.

Definition cone_row (g : Geometry) (a : float) : list float :=
  src_position g a ++
  det_point_position g a (det_params_mid_pt g) ++
  scale (fst (det_axes g a)) (px_size g 0) ++
  scale (snd (det_axes g a)) (px_size g 1).

Definition parallel3d_row (g : Geometry) (a : float) : list float :=
  negate (det_to_src g a (det_params_mid_pt g)) ++
  det_point_position g a (det_params_mid_pt g) ++
  scale (fst (det_axes g a)) (px_size g 0) ++
  scale (snd (det_axes g a)) (px_size g 1).

Definition fan_row (g : Geometry) (a : float) : list float :=
  src_position g a ++
  det_point_position g a (det_params_mid_pt g) ++
  scale (det_axis g a) (px_size g 0).

(** Every triple (a, b, c) of a row becomes (c, b, a). *)
Fixpoint flip_triples (row : list float) : list float :=
  match row with
  | a :: b :: c :: rest => c :: b :: a :: flip_triples rest
  | _ => row
  end.

(** Geometries whose queries return vectors of the dimension at hand. *)
Definition det3d_wf (g : Geometry) : Prop :=
  (forall a, length (det_point_position g a (det_params_mid_pt g)) = 3%nat) /\
  (forall a, length (fst (det_axes g a)) = 3%nat /\
             length (snd (det_axes g a)) = 3%nat) /\
  (2 <= length (cell_sides (det_partition g)))%nat.

Definition cone_wf (g : Geometry) : Prop :=
  (forall a, length (src_position g a) = 3%nat) /\ det3d_wf g.

Definition parallel3d_wf (g : Geometry) : Prop :=
  (forall a, length (det_to_src g a (det_params_mid_pt g)) = 3%nat) /\
  det3d_wf g.

Definition fan_wf (g : Geometry) : Prop :=
  (forall a, length (src_position g a) = 2%nat) /\
  (forall a, length (det_point_position g a (det_params_mid_pt g)) = 2%nat) /\
  (forall a, length (det_axis g a) = 2%nat) /\
  (1 <= length (cell_sides (det_partition g)))%nat.

(** A computation that leaves the implementation cache alone. *)
Definition keeps_cache {A} (m : M GeomState A) : Prop :=
  forall s, implementation_cache (snd (m s)) = implementation_cache s.

(** ** Concrete instances *)

(** Requirement evaluation for the instances: every listed requirement is
    taken as met. *)
Definition any_version : string -> string -> bool := fun _ _ => true.

(** The volume of [examples/tomo/check_axes_parallel3d.py]:
    shape (100, 150, 200), centred at the origin, unit cells. *)
Definition example_partition3 : RectPartition :=
  {| shape := [100; 150; 200];
     min_pt := [(-50)%float; (-75)%float; (-100)%float];
     max_pt := [50%float; 75%float; 100%float];
     cell_sides := [1%float; 1%float; 1%float];
     is_uniform := true;
     has_isotropic_cells := true |}.

Definition example_space3 : DiscreteLp :=
  {| lp_partition := example_partition3; lp_is_uniform := true; lp_ndim := 3 |}.

(** A 2D grid of shape (8, 16) on the unit square: cells 0.125 by
    0.0625. *)
Definition example_space2_aniso : DiscreteLp :=
  {| lp_partition :=
       {| shape := [8; 16];
          min_pt := [0%float; 0%float];
          max_pt := [1%float; 1%float];
          cell_sides := [0.125%float; 0.0625%float];
          is_uniform := true;
          has_isotropic_cells := false |};
     lp_is_uniform := true;
     lp_ndim := 2 |}.

Definition example_space_nonuniform : DiscreteLp :=
  {| lp_partition := example_partition3; lp_is_uniform := false; lp_ndim := 3 |}.

(** A detector partition of shape (4, 5) with cells 2 by 3. *)
Definition example_det_partition : RectPartition :=
  {| shape := [4; 5];
     min_pt := [(-4)%float; (-7.5)%float];
     max_pt := [4%float; 7.5%float];
     cell_sides := [2%float; 3%float];
     is_uniform := true;
     has_isotropic_cells := false |}.

(** A 3D geometry about the axis (0, 0, 1) in its initial position, as
    checked in [examples/tomo/check_axes_parallel3d.py]: detector axes
    (0,1,0) and (0,0,1), detector at (-1,0,0); two angles. *)
Definition example_geometry3 (cls : BeamClass) : Geometry :=
  {| beam_class := cls;
     detector := {| det_class := FlatDetector; det_size := 20 |};
     ndim := 3;
     angles := [0%float; 0.5%float];
     det_params_mid_pt := [0%float; 0%float];
     det_partition := example_det_partition;
     src_position := fun a => [7%float; 8%float; a];
     det_point_position := fun a _ => [(-1)%float; 0%float; a];
     det_axes := fun _ => ([0%float; 1%float; 0%float],
                           [0%float; 0%float; 1%float]);
     det_axis := fun _ => [0%float; 1%float];
     det_to_src := fun _ _ => [1%float; 0%float; 0%float] |}.

(** A fan-beam geometry with two angles. *)
Definition example_geometry2 : Geometry :=
  {| beam_class := DivergentBeamGeometry;
     detector := {| det_class := FlatDetector; det_size := 4 |};
     ndim := 2;
     angles := [0%float; 0.5%float];
     det_params_mid_pt := [0%float];
     det_partition := example_det_partition;
     src_position := fun a => [7%float; a];
     det_point_position := fun a _ => [(-1)%float; a];
     det_axes := fun _ => ([0%float; 1%float], []);
     det_axis := fun _ => [0%float; 1%float];
     det_to_src := fun _ _ => [1%float; 0%float] |}.

Definition empty_state : GeomState :=
  {| implementation_cache := ∅; calls := [] |}.

Definition empty_machine : Machine :=
  {| heap := []; data_objs := []; projector_objs := []; algorithm_objs := [] |}.

(** A single-precision, C-contiguous, aligned 2 x 2 array, and a
    double-precision one with the same entries. *)
Definition example_float32 : ndarray :=
  {| dtype := Float32; arr_ndim := 2; c_contiguous := true; aligned := true;
     values := [1%float; 2%float; 3%float; 4%float] |}.

Definition example_float64 : ndarray :=
  {| dtype := Float64; arr_ndim := 2; c_contiguous := true; aligned := true;
     values := [1%float; 2%float; 3%float; 4%float] |}.

(** A one-dimensional single-precision array. *)
Definition example_vector : ndarray :=
  {| dtype := Float32; arr_ndim := 1; c_contiguous := true; aligned := true;
     values := [1%float; 2%float] |}.

Definition machine_with (a : ndarray) : Machine :=
  {| heap := [a]; data_objs := []; projector_objs := []; algorithm_objs := [] |}.

(** The values of the host array at address [p]. *)
Definition host_values (m : Machine) (p : nat) : option (list float) :=
  values <$> heap m !! p.

(** A geometry with a non-uniform detector partition, and one of a class
    the dispatcher does not know. *)
Definition example_geometry_nonuniform : Geometry :=
  {| beam_class := ParallelBeamGeometry;
     detector := {| det_class := FlatDetector; det_size := 20 |};
     ndim := 3;
     angles := [0%float];
     det_params_mid_pt := [0%float; 0%float];
     det_partition :=
       {| shape := [4; 5]; min_pt := []; max_pt := [];
          cell_sides := [2%float; 3%float];
          is_uniform := false; has_isotropic_cells := false |};
     src_position := fun _ => [];
     det_point_position := fun _ _ => [];
     det_axes := fun _ => ([], []);
     det_axis := fun _ => [];
     det_to_src := fun _ _ => [] |}.

Definition example_descriptor : pydict :=
  <["type" := VStr "parallel3d_vec"]> ∅.

Definition cached_state : GeomState :=
  {| implementation_cache := <["astra" := example_descriptor]> ∅;
     calls := [] |}.

(** An array with [n] rows of [k] entries each. *)
Definition has_shape (n k : nat) (vs : matrix) : Prop :=
  length vs = n /\ Forall (fun row => length row = k) vs.

(** The category of a geometry type: a vector variant belongs to the
    category of its base type. *)
Definition base_category (proj_type : string) : string :=
  if String.eqb proj_type "fanflat_vec" then "fanflat"
  else if String.eqb proj_type "parallel3d_vec" then "parallel3d"
  else if String.eqb proj_type "cone_vec" then "cone"
  else proj_type.

(** The CPU projector of a category and an interpolation, and the GPU
    projector of a category. *)
Definition cpu_projector_type (category vol_interp : string) : string :=
  if String.eqb category "parallel" then
    if String.eqb vol_interp "nearest" then "line" else "linear"
  else if String.eqb category "fanflat" then "line_fanflat"
  else if String.eqb category "parallel3d" then "linear3d"
  else "linearcone".

Definition cuda_projector_type (category : string) : string :=
  if String.eqb category "parallel" || String.eqb category "fanflat"
  then "cuda" else "cuda3d".

Definition proj_types : list string :=
  ["parallel"; "fanflat"; "fanflat_vec"; "parallel3d"; "parallel3d_vec";
   "cone"; "cone_vec"].

(** The configuration [astra_projector] hands to the engine. *)
Definition projector_cfg (cfg_type : string)
    (astra_vol_geom astra_proj_geom : pydict) (weighting : bool) : pydict :=
  <["type" := VStr cfg_type]>
  (<["VolumeGeometry" := VDict astra_vol_geom]>
  (<["ProjectionGeometry" := VDict astra_proj_geom]>
  (<["options" := VDict (if weighting
                         then <["DensityWeighting" := VBool true]> ∅
                         else ∅)]> ∅))).

Definition with_projector (m : Machine) (dim : Z) (cfg : pydict) : Machine :=
  {| heap := heap m; data_objs := data_objs m;
     projector_objs := projector_objs m ++ [(dim, cfg)];
     algorithm_objs := algorithm_objs m |}.

(** The algorithm tag of a direction, a dimension and an implementation. *)
Definition algorithm_type (forward : bool) (ndim : Z) (impl : string)
    : string :=
  String.append (if forward then "FP" else "BP")
    (String.append (if ndim =? 3 then "3D" else "")
       (if String.eqb impl "cuda" then "_CUDA" else "")).

Definition with_algorithm (m : Machine) (cfg : pydict) : Machine :=
  {| heap := heap m; data_objs := data_objs m;
     projector_objs := projector_objs m;
     algorithm_objs := algorithm_objs m ++ [cfg] |}.

Definition with_data (m : Machine) (o : DataObj) : Machine :=
  {| heap := heap m; data_objs := data_objs m ++ [o];
     projector_objs := projector_objs m;
     algorithm_objs := algorithm_objs m |}.

(** The dimension [astra_data] works with: that of the data when data
    is given (an array in host memory), the [ndim] argument otherwise. *)
Definition data_ndim (m : Machine) (data : DataArg) (ndim : Z) : option Z :=
  match data with
  | DataNone => Some ndim
  | DataNdarray p | DataLpElement _ p => arr_ndim <$> heap m !! p
  | DataOther => None
  end.

(** The engine's name for a kind of data. *)
Definition dtype_str (datatype : string) : string :=
  if String.eqb datatype "volume" then "-vol" else "-sino".

(** A computation that changes nothing, and one that changes nothing when
    it fails. *)
Definition changes_nothing {A} (c : M Machine A) : Prop :=
  forall m, snd (c m) = m.

Definition fails_cleanly {A} (c : M Machine A) : Prop :=
  forall m e m', c m = (Err e, m') -> m' = m.

(** Further instances: an isotropic 2D grid, a four-dimensional grid, a
    3D grid with anisotropic cells, a parallel-beam 2D geometry, a
    geometry without angles, and an engine that supports nothing that
    depends on the version. *)
Definition example_space2 : DiscreteLp :=
  {| lp_partition :=
       {| shape := [8; 16];
          min_pt := [0%float; (-1)%float];
          max_pt := [1%float; 1%float];
          cell_sides := [0.125%float; 0.125%float];
          is_uniform := true;
          has_isotropic_cells := true |};
     lp_is_uniform := true;
     lp_ndim := 2 |}.

Definition example_space4 : DiscreteLp :=
  {| lp_partition :=
       {| shape := [2; 2; 2; 2]; min_pt := []; max_pt := [];
          cell_sides := []; is_uniform := true;
          has_isotropic_cells := true |};
     lp_is_uniform := true;
     lp_ndim := 4 |}.

Definition example_space3_aniso : DiscreteLp :=
  {| lp_partition :=
       {| shape := [100; 150; 200];
          min_pt := [(-50)%float; (-75)%float; (-50)%float];
          max_pt := [50%float; 75%float; 50%float];
          cell_sides := [1%float; 1%float; 0.5%float];
          is_uniform := true;
          has_isotropic_cells := false |};
     lp_is_uniform := true;
     lp_ndim := 3 |}.

Definition no_version : string -> string -> bool := fun _ _ => false.

Definition example_parallel2 : Geometry :=
  {| beam_class := ParallelBeamGeometry;
     detector := {| det_class := FlatDetector; det_size := 4 |};
     ndim := 2;
     angles := [0%float; 0.5%float; 1%float];
     det_params_mid_pt := [0%float];
     det_partition := example_det_partition;
     src_position := fun _ => [];
     det_point_position := fun a _ => [(-1)%float; a];
     det_axes := fun _ => ([0%float; 1%float], []);
     det_axis := fun _ => [0%float; 1%float];
     det_to_src := fun _ _ => [1%float; 0%float] |}.

Definition example_no_angles : Geometry :=
  {| beam_class := DivergentBeamGeometry;
     detector := {| det_class := FlatDetector; det_size := 20 |};
     ndim := 3;
     angles := [];
     det_params_mid_pt := [];
     det_partition := example_det_partition;
     src_position := fun _ => [];
     det_point_position := fun _ _ => [];
     det_axes := fun _ => ([], []);
     det_axis := fun _ => [];
     det_to_src := fun _ _ => [] |}.

Definition other_backend_state : GeomState :=
  {| implementation_cache := <["skimage" := example_descriptor]> ∅;
     calls := [] |}.

(** Descriptors of a fan, a cone and an unknown geometry type. *)
Definition fan_descriptor : pydict := <["type" := VStr "fanflat_vec"]> ∅.
Definition cone_descriptor : pydict := <["type" := VStr "cone_vec"]> ∅.
Definition odd_descriptor : pydict := <["type" := VStr "helical"]> ∅.

(** * Properties *)

(** ** Volume geometry *)

Lemma length3_inv {A} (l : list A) :
  Z.of_nat (length l) = 3 -> exists x y z, l = [x; y; z].
Proof.
  intros E. destruct l as [|x [|y [|z [|? ?]]]]; simpl in E; try lia.
  by exists x, y, z.
Qed.

(** C1: a three-dimensional, uniformly discretized grid that passes the
    anisotropy check (isotropic cells, or anisotropic voxels supported) is
    turned into a descriptor: the engine constructor is called with
    (axis-1 size, axis-2 size, axis-0 size) and the window bounds in the
    order axis 2, axis 1, axis 0, so that the column count is the axis-2
    size, the row count the axis-1 size and the slice count the axis-0
    size, and the window of the descriptor (its ['option'] entry) runs
    over axis 2 in X, axis 1 in Y and axis 0 in Z. *)
Theorem astra_volume_geometry_3d (d : DiscreteLp) :
  lp_is_uniform d = true ->
  lp_ndim d = 3 ->
  grid_wf d ->
  (has_isotropic_cells (lp_partition d) = true \/
   astra_supports "anisotropic_voxels_3d" = Ok true) ->
  exists s0 s1 s2 a0 a1 a2 b0 b1 b2 vol_geom window,
    shape (lp_partition d) = [s0; s1; s2] /\
    min_pt (lp_partition d) = [a0; a1; a2] /\
    max_pt (lp_partition d) = [b0; b1; b2] /\
    astra_volume_geometry (IsDiscreteLp d) = Ok vol_geom /\
    create_vol_geom [VInt s1; VInt s2; VInt s0;
                     VFloat a2; VFloat b2; VFloat a1; VFloat b1;
                     VFloat a0; VFloat b0] = Ok vol_geom /\
    vol_geom !! "GridColCount" = Some (VInt s2) /\
    vol_geom !! "GridRowCount" = Some (VInt s1) /\
    vol_geom !! "GridSliceCount" = Some (VInt s0) /\
    vol_geom !! "option" = Some (VDict window) /\
    window !! "WindowMinX" = Some (VFloat a2) /\
    window !! "WindowMaxX" = Some (VFloat b2) /\
    window !! "WindowMinY" = Some (VFloat a1) /\
    window !! "WindowMaxY" = Some (VFloat b1) /\
    window !! "WindowMinZ" = Some (VFloat a0) /\
    window !! "WindowMaxZ" = Some (VFloat b0).
Proof.
  intros Hu Hn (Hs & Hmin & Hmax) Hiso.
  rewrite Hn in Hs, Hmin, Hmax.
  destruct (length3_inv _ Hs) as (s0 & s1 & s2 & Es).
  destruct (length3_inv _ Hmin) as (a0 & a1 & a2 & Ea).
  destruct (length3_inv _ Hmax) as (b0 & b1 & b2 & Eb).
  exists s0, s1, s2, a0, a1, a2, b0, b1, b2.
  assert (E : astra_volume_geometry (IsDiscreteLp d) =
    create_vol_geom [VInt s1; VInt s2; VInt s0;
                     VFloat a2; VFloat b2; VFloat a1; VFloat b1;
                     VFloat a0; VFloat b0]).
  { unfold astra_volume_geometry. rewrite Hu, Hn, Es, Ea, Eb. simpl.
    destruct Hiso as [Hiso | Hsup].
    - rewrite Hiso. reflexivity.
    - destruct (has_isotropic_cells (lp_partition d)); [reflexivity |].
      simpl. rewrite Hsup. reflexivity. }
  rewrite E. eexists _, _. split_and!; try done; reflexivity.
Qed.

(** C7: a two-dimensional, uniformly discretized grid with anisotropic
    cells is rejected with [NotImplementedError] whenever the engine does
    not support ['anisotropic_voxels_2d'], a feature the matrix maps to
    [None] (supported by no version); no descriptor is produced. *)
Theorem astra_volume_geometry_2d_anisotropic (d : DiscreteLp) :
  lp_is_uniform d = true ->
  lp_ndim d = 2 ->
  has_isotropic_cells (lp_partition d) = false ->
  astra_supports "anisotropic_voxels_2d" = Ok false ->
  ASTRA_FEATURES !! "anisotropic_voxels_2d" = Some ReqNone /\
  astra_volume_geometry (IsDiscreteLp d) =
    Err (Raise NotImplementedError
           "non-isotropic pixels in 2d volumes not supported by ASTRA v{}") /\
  is_ok (astra_volume_geometry (IsDiscreteLp d)) = false.
Proof.
  intros Hu Hn Hiso Hsup.
  assert (E : astra_volume_geometry (IsDiscreteLp d) =
    Err (Raise NotImplementedError
           "non-isotropic pixels in 2d volumes not supported by ASTRA v{}")).
  { unfold astra_volume_geometry. rewrite Hu, Hn, Hiso. simpl.
    rewrite Hsup. reflexivity. }
  split; [reflexivity |]. split; [exact E |]. by rewrite E.
Qed.

(** C10: a grid that is not uniformly discretized is rejected with
    [ValueError], whatever its dimension, shape and cell sizes; the only
    check made before is the one on the type of the argument. *)
Theorem astra_volume_geometry_nonuniform (d : DiscreteLp) :
  lp_is_uniform d = false ->
  astra_volume_geometry (IsDiscreteLp d) =
    Err (Raise ValueError "`discr_reco` {} is not uniformly discretized") /\
  is_ok (astra_volume_geometry (IsDiscreteLp d)) = false /\
  astra_volume_geometry NotDiscreteLp =
    Err (Raise TypeError "`discr_reco` {!r} is not a DiscreteLp instance").
Proof.
  intros Hu. unfold astra_volume_geometry. rewrite Hu. simpl. done.
Qed.

(** ** Vector builders *)

Lemma length3 {A} (l : list A) :
  length l = 3%nat -> exists x y z, l = [x; y; z].
Proof.
  destruct l as [|x [|y [|z [|? ?]]]]; simpl; intros E; try lia.
  by exists x, y, z.
Qed.

Lemma length2 {A} (l : list A) :
  length l = 2%nat -> exists x y, l = [x; y].
Proof.
  destruct l as [|x [|y [|? ?]]]; simpl; intros E; try lia.
  by exists x, y.
Qed.

Lemma broadcast_to_same (n : nat) (v : list float) :
  length v = n -> broadcast_to n v = Ok v.
Proof. intros E. unfold broadcast_to. by rewrite decide_True. Qed.

Lemma setitem_slice_insert (vs : matrix) (i lo hi : nat)
    (row v : list float) :
  (i < length vs)%nat ->
  length v = (hi - lo)%nat ->
  setitem_slice (<[i := row]> vs) i lo hi v =
    Ok (<[i := take lo row ++ v ++ drop hi row]> vs).
Proof.
  intros Hi Hv. unfold setitem_slice.
  rewrite list_lookup_insert_eq by done.
  rewrite broadcast_to_same by done. simpl.
  by rewrite list_insert_insert_eq.
Qed.

Lemma conebeam_3d_body_row (g : Geometry) (i : nat) (a : float)
    (vs : matrix) :
  cone_wf g ->
  vs !! i = Some (replicate 12 PrimFloat.zero) ->
  conebeam_3d_body g i a vs = Ok (<[i := cone_row g a]> vs).
Proof.
  intros (Hs & Hd & Hax & Hpx) Hrow.
  assert (Hi : (i < length vs)%nat) by (eapply lookup_lt_Some; eauto).
  unfold conebeam_3d_body, cone_row, px_size.
  destruct (length3 _ (Hs a)) as (s0 & s1 & s2 & ->).
  destruct (length3 _ (Hd a)) as (d0 & d1 & d2 & ->).
  destruct (Hax a) as [Hu Hv].
  destruct (length3 _ Hu) as (u0 & u1 & u2 & ->).
  destruct (length3 _ Hv) as (v0 & v1 & v2 & ->).
  destruct (cell_sides (det_partition g)) as [|p0 [|p1 rest]];
    simpl in Hpx; try lia.
  rewrite <- (list_insert_id vs i _ Hrow).
  repeat (rewrite setitem_slice_insert by done; simpl).
  by rewrite list_insert_insert_eq.
Qed.

Lemma parallel_3d_body_row (g : Geometry) (i : nat) (a : float)
    (vs : matrix) :
  parallel3d_wf g ->
  vs !! i = Some (replicate 12 PrimFloat.zero) ->
  parallel_3d_body g i a vs = Ok (<[i := parallel3d_row g a]> vs).
Proof.
  intros (Hs & Hd & Hax & Hpx) Hrow.
  assert (Hi : (i < length vs)%nat) by (eapply lookup_lt_Some; eauto).
  unfold parallel_3d_body, parallel3d_row, px_size.
  destruct (length3 _ (Hs a)) as (s0 & s1 & s2 & ->).
  destruct (length3 _ (Hd a)) as (d0 & d1 & d2 & ->).
  destruct (Hax a) as [Hu Hv].
  destruct (length3 _ Hu) as (u0 & u1 & u2 & ->).
  destruct (length3 _ Hv) as (v0 & v1 & v2 & ->).
  destruct (cell_sides (det_partition g)) as [|p0 [|p1 rest]];
    simpl in Hpx; try lia.
  rewrite <- (list_insert_id vs i _ Hrow).
  repeat (rewrite setitem_slice_insert by done; simpl).
  by rewrite list_insert_insert_eq.
Qed.

Lemma conebeam_2d_body_row (g : Geometry) (i : nat) (a : float)
    (vs : matrix) :
  fan_wf g ->
  vs !! i = Some (replicate 6 PrimFloat.zero) ->
  conebeam_2d_body g i a vs = Ok (<[i := fan_row g a]> vs).
Proof.
  intros (Hs & Hd & Hu & Hpx) Hrow.
  assert (Hi : (i < length vs)%nat) by (eapply lookup_lt_Some; eauto).
  unfold conebeam_2d_body, fan_row, px_size.
  destruct (length2 _ (Hs a)) as (s0 & s1 & ->).
  destruct (length2 _ (Hd a)) as (d0 & d1 & ->).
  destruct (length2 _ (Hu a)) as (u0 & u1 & ->).
  destruct (cell_sides (det_partition g)) as [|p0 rest];
    simpl in Hpx; try lia.
  rewrite <- (list_insert_id vs i _ Hrow).
  repeat (rewrite setitem_slice_insert by done; simpl).
  by rewrite list_insert_insert_eq.
Qed.

(** A loop whose body overwrites row [ang_idx] of a zero-filled array
    fills the array with one row per angle, in angle order. *)
Lemma for_enumerate_fill
    (body : nat -> float -> matrix -> result matrix)
    (row_of : float -> list float) (z : list float) :
  (forall i a vs, vs !! i = Some z -> body i a vs = Ok (<[i := row_of a]> vs)) ->
  forall (angs : list float) (filled : matrix),
    for_enumerate body (length filled) angs
      (filled ++ replicate (length angs) z) =
    Ok (filled ++ map row_of angs).
Proof.
  intros Hbody. induction angs as [|a angs IH]; intros filled; simpl.
  - reflexivity.
  - rewrite Hbody by apply list_lookup_middle, eq_refl.
    simpl.
    replace (<[length filled := row_of a]> (filled ++ z :: replicate (length angs) z))
      with ((filled ++ [row_of a]) ++ replicate (length angs) z).
    + replace (S (length filled)) with (length (filled ++ [row_of a]))
        by (rewrite length_app; simpl; lia).
      rewrite IH. by rewrite <- app_assoc.
    + rewrite <- app_assoc. simpl.
      rewrite insert_app_r_alt by lia.
      by rewrite Nat.sub_diag.
Qed.

Lemma getitem_columns_map (row_of new_row : float -> list float)
    (ind : list nat) (angs : list float) :
  (forall a, take_columns (row_of a) ind = Ok (new_row a)) ->
  getitem_columns (map row_of angs) ind = Ok (map new_row angs).
Proof.
  intros H. induction angs as [|a angs IH]; simpl; [done |].
  by rewrite H, IH.
Qed.

Lemma newind_eq : newind = [2; 1; 0; 5; 4; 3; 8; 7; 6; 11; 10; 9]%nat.
Proof. reflexivity. Qed.

Lemma take_columns_newind (row : list float) :
  length row = 12%nat -> take_columns row newind = Ok (flip_triples row).
Proof.
  intros E. rewrite newind_eq.
  do 12 (destruct row as [|? row]; simpl in E; try lia).
  destruct row; simpl in E; [reflexivity | lia].
Qed.

Lemma cone_row_length (g : Geometry) (a : float) :
  cone_wf g -> length (cone_row g a) = 12%nat.
Proof.
  intros (Hs & Hd & Hax & _). destruct (Hax a) as [Hu Hv].
  unfold cone_row, scale.
  rewrite !length_app, !length_map, Hs, Hd, Hu, Hv. reflexivity.
Qed.

Lemma parallel3d_row_length (g : Geometry) (a : float) :
  parallel3d_wf g -> length (parallel3d_row g a) = 12%nat.
Proof.
  intros (Hs & Hd & Hax & _). destruct (Hax a) as [Hu Hv].
  unfold parallel3d_row, scale, negate.
  rewrite !length_app, !length_map, Hs, Hd, Hu, Hv. reflexivity.
Qed.

(** The two 3D builders: rows in natural ordering, then the column
    reordering. *)
Lemma vec_builders_axis_order_aux (g : Geometry) :
  (cone_wf g ->
     for_enumerate (conebeam_3d_body g) 0 (angles g)
       (np_zeros (length (angles g)) 12) = Ok (map (cone_row g) (angles g)) /\
     getitem_columns (map (cone_row g) (angles g)) newind =
       Ok (map (fun a => flip_triples (cone_row g a)) (angles g)) /\
     astra_conebeam_3d_geom_to_vec g =
       Ok (map (fun a => flip_triples (cone_row g a)) (angles g))) /\
  (parallel3d_wf g ->
     for_enumerate (parallel_3d_body g) 0 (angles g)
       (np_zeros (length (angles g)) 12) =
       Ok (map (parallel3d_row g) (angles g)) /\
     getitem_columns (map (parallel3d_row g) (angles g)) newind =
       Ok (map (fun a => flip_triples (parallel3d_row g a)) (angles g)) /\
     astra_parallel_3d_geom_to_vec g =
       Ok (map (fun a => flip_triples (parallel3d_row g a)) (angles g))).
Proof.
  split.
  - intros Hwf.
    assert (L : for_enumerate (conebeam_3d_body g) 0 (angles g)
       (np_zeros (length (angles g)) 12) = Ok (map (cone_row g) (angles g))).
    { apply (for_enumerate_fill _ (cone_row g) _
               (fun i a vs => conebeam_3d_body_row g i a vs Hwf)
               (angles g) []). }
    assert (P : getitem_columns (map (cone_row g) (angles g)) newind =
       Ok (map (fun a => flip_triples (cone_row g a)) (angles g))).
    { apply getitem_columns_map. intros a.
      apply take_columns_newind, cone_row_length, Hwf. }
    split; [exact L |]. split; [exact P |].
    unfold astra_conebeam_3d_geom_to_vec. rewrite L. exact P.
  - intros Hwf.
    assert (L : for_enumerate (parallel_3d_body g) 0 (angles g)
       (np_zeros (length (angles g)) 12) =
       Ok (map (parallel3d_row g) (angles g))).
    { apply (for_enumerate_fill _ (parallel3d_row g) _
               (fun i a vs => parallel_3d_body_row g i a vs Hwf)
               (angles g) []). }
    assert (P : getitem_columns (map (parallel3d_row g) (angles g)) newind =
       Ok (map (fun a => flip_triples (parallel3d_row g a)) (angles g))).
    { apply getitem_columns_map. intros a.
      apply take_columns_newind, parallel3d_row_length, Hwf. }
    split; [exact L |]. split; [exact P |].
    unfold astra_parallel_3d_geom_to_vec. rewrite L. exact P.
Qed.

(** C2: with one row per angle assembled in natural ordering, the cone
    and parallel-3D builders reorder the columns of every row by
    [2,1,0, 5,4,3, 8,7,6, 11,10,9], which turns each of the four triples
    (a, b, c) into (c, b, a); the fan builder returns its rows as
    assembled. *)
Theorem vec_builders_axis_order (g : Geometry) :
  newind = [2; 1; 0; 5; 4; 3; 8; 7; 6; 11; 10; 9]%nat /\
  (cone_wf g ->
     for_enumerate (conebeam_3d_body g) 0 (angles g)
       (np_zeros (length (angles g)) 12) = Ok (map (cone_row g) (angles g)) /\
     getitem_columns (map (cone_row g) (angles g)) newind =
       Ok (map (fun a => flip_triples (cone_row g a)) (angles g)) /\
     astra_conebeam_3d_geom_to_vec g =
       Ok (map (fun a => flip_triples (cone_row g a)) (angles g))) /\
  (parallel3d_wf g ->
     for_enumerate (parallel_3d_body g) 0 (angles g)
       (np_zeros (length (angles g)) 12) =
       Ok (map (parallel3d_row g) (angles g)) /\
     getitem_columns (map (parallel3d_row g) (angles g)) newind =
       Ok (map (fun a => flip_triples (parallel3d_row g a)) (angles g)) /\
     astra_parallel_3d_geom_to_vec g =
       Ok (map (fun a => flip_triples (parallel3d_row g a)) (angles g))) /\
  (fan_wf g ->
     astra_conebeam_2d_geom_to_vec g = Ok (map (fan_row g) (angles g))).
Proof.
  destruct (vec_builders_axis_order_aux g) as (Hcone & Hpar).
  split; [exact newind_eq |]. split; [exact Hcone |]. split; [exact Hpar |].
  intros Hwf. unfold astra_conebeam_2d_geom_to_vec.
  apply (for_enumerate_fill _ (fan_row g) _
           (fun i a vs => conebeam_2d_body_row g i a vs Hwf)
           (angles g) []).
Qed.

(** ** Projection geometry: cache and failures *)

Lemma keeps_cache_ret {A} (a : A) : keeps_cache (ret a).
Proof. by intros s. Qed.

Lemma keeps_cache_raise {A} c msg : keeps_cache (@raise _ A c msg).
Proof. by intros s. Qed.

Lemma keeps_cache_lift {A} (r : result A) : keeps_cache (lift r).
Proof. by intros s. Qed.

Lemma keeps_cache_log name : keeps_cache (log_call name).
Proof. by intros s. Qed.

Lemma keeps_cache_bind {A B} (m : M GeomState A) (k : A -> M GeomState B) :
  keeps_cache m -> (forall a, keeps_cache (k a)) -> keeps_cache (mbind m k).
Proof.
  intros Hm Hk s. unfold mbind. specialize (Hm s).
  destruct (m s) as [[a | e] s1]; simpl in *; [| done].
  by rewrite Hk.
Qed.

Create HintDb cache discriminated.
#[local] Hint Resolve keeps_cache_ret keeps_cache_raise keeps_cache_lift
  keeps_cache_log : cache.

Ltac keeps_cache_tac :=
  repeat first
    [ apply keeps_cache_bind; [| intros ?]
    | solve [auto with cache] ].

Lemma bind_failure_keeps_cache {A B}
    (m : M GeomState A) (k : A -> M GeomState B) (s s' : GeomState)
    (e : exn) :
  keeps_cache m ->
  (forall a s1, is_ok (fst (k a s1)) = true) ->
  mbind m k s = (Err e, s') ->
  implementation_cache s' = implementation_cache s.
Proof.
  intros Hm Hk. unfold mbind. specialize (Hm s).
  destruct (m s) as [[a | e1] s1]; simpl in *.
  - intros Hf. specialize (Hk a s1). by rewrite Hf in Hk.
  - by intros [= _ <-].
Qed.

Lemma astra_projection_geometry_err (geometry : GeomArg)
    (st st' : GeomState) (e : exn) :
  astra_projection_geometry geometry st = (Err e, st') ->
  implementation_cache st' = implementation_cache st.
Proof.
  destruct geometry as [g |]; [| by intros [= _ <-]].
  unfold astra_projection_geometry.
  unfold mbind at 1. unfold cache_get at 1.
  destruct (implementation_cache st !! "astra") as [pg |] eqn:Ec;
    [done |].
  destruct (negb (is_uniform (det_partition g))); [by intros [= _ <-] |].
  apply bind_failure_keeps_cache.
  - repeat case_match; keeps_cache_tac.
  - intros a s1. unfold mbind, cache_get, cache_set, ret.
    by destruct (implementation_cache s1 !! "astra").
Qed.

(** After a successful conversion the cache holds the returned
    descriptor. *)
Lemma astra_projection_geometry_stores (g : Geometry) (st st' : GeomState)
    (proj_geom : pydict) :
  astra_projection_geometry (IsGeometry g) st = (Ok proj_geom, st') ->
  implementation_cache st' !! "astra" = Some proj_geom.
Proof.
  unfold astra_projection_geometry.
  unfold mbind at 1. unfold cache_get at 1.
  destruct (implementation_cache st !! "astra") as [pg |] eqn:Ec.
  { unfold ret. intros [= <- <-]. exact Ec. }
  destruct (negb (is_uniform (det_partition g))); [discriminate |].
  unfold mbind at 1.
  match goal with
  | |- context [match ?blk st with _ => _ end] =>
      assert (Hk : keeps_cache blk)
        by (repeat case_match; keeps_cache_tac);
      specialize (Hk st); destruct (blk st) as [[pg | e] s1]
  end; [| discriminate].
  simpl in Hk. unfold mbind, cache_get, cache_set, ret.
  rewrite Hk, Ec. intros [= <- <-]. simpl. apply lookup_insert_eq.
Qed.

(** C5: when the implementation cache has an entry under ['astra'], the
    conversion returns that entry and changes nothing: no cache write, no
    builder or constructor call, and no check of the detector partition
    or of the geometry variant.  Hence a call that follows a successful
    one returns the same descriptor. *)
Theorem astra_projection_geometry_cache_hit (g : Geometry) (st : GeomState) :
  (forall proj_geom,
     implementation_cache st !! "astra" = Some proj_geom ->
     astra_projection_geometry (IsGeometry g) st = (Ok proj_geom, st)) /\
  (forall proj_geom st',
     astra_projection_geometry (IsGeometry g) st = (Ok proj_geom, st') ->
     astra_projection_geometry (IsGeometry g) st' = (Ok proj_geom, st')).
Proof.
  assert (Hhit : forall s proj_geom,
     implementation_cache s !! "astra" = Some proj_geom ->
     astra_projection_geometry (IsGeometry g) s = (Ok proj_geom, s)).
  { intros s proj_geom Hc. unfold astra_projection_geometry.
    unfold mbind, cache_get. by rewrite Hc. }
  split; [apply Hhit |].
  intros proj_geom st' Hcall.
  apply Hhit. eapply astra_projection_geometry_stores, Hcall.
Qed.

(** C6: a conversion that fails leaves the implementation cache as it
    was and returns no descriptor; this covers an argument that is not a
    geometry, a non-uniform detector partition and a geometry variant
    outside the four supported ones. *)
Theorem astra_projection_geometry_failure
    (geometry : GeomArg) (st : GeomState) :
  (is_ok (fst (astra_projection_geometry geometry st)) = false ->
   implementation_cache (snd (astra_projection_geometry geometry st)) =
     implementation_cache st) /\
  (geometry = NotGeometry ->
   fst (astra_projection_geometry geometry st) =
     Err (Raise TypeError "`geometry` {!r} is not a `Geometry` instance")) /\
  (forall g,
     geometry = IsGeometry g ->
     implementation_cache st !! "astra" = None ->
     is_uniform (det_partition g) = false ->
     fst (astra_projection_geometry geometry st) =
       Err (Raise ValueError "non-uniform detector sampling is not supported")) /\
  (forall g,
     geometry = IsGeometry g ->
     implementation_cache st !! "astra" = None ->
     is_uniform (det_partition g) = true ->
     (is_parallel g || is_divergent g) && is_flat g &&
       ((ndim g =? 2) || (ndim g =? 3)) = false ->
     fst (astra_projection_geometry geometry st) =
       Err (Raise NotImplementedError "unknown ASTRA geometry type {!r}")).
Proof.
  split; [| split; [| split]].
  - destruct (astra_projection_geometry geometry st) as [[pg | e] st']
      eqn:E; simpl; [done |].
    intros _. eapply astra_projection_geometry_err, E.
  - by intros ->.
  - intros g -> Hc Hu. unfold astra_projection_geometry, mbind, cache_get.
    by rewrite Hc, Hu.
  - intros g -> Hc Hu Hv. unfold astra_projection_geometry.
    unfold mbind at 1. unfold cache_get at 1. rewrite Hc, Hu. simpl.
    unfold mbind at 1.
    destruct (is_parallel g), (is_divergent g), (is_flat g),
      (ndim g =? 2), (ndim g =? 3); simpl in Hv; try discriminate;
      reflexivity.
Qed.

(** ** Projection geometry: detector counts of the 3D variants *)

Lemma flip_triples_length12 (row : list float) :
  length row = 12%nat -> length (flip_triples row) = 12%nat.
Proof.
  intros E.
  do 12 (destruct row as [|? row]; simpl in E; try lia).
  destruct row; simpl in E; [reflexivity | lia].
Qed.

Lemma all_rows_have_flipped (row_of : float -> list float)
    (angs : list float) :
  (forall a, length (row_of a) = 12%nat) ->
  all_rows_have 12 (map (fun a => flip_triples (row_of a)) angs) = true.
Proof.
  intros H. unfold all_rows_have. apply forallb_forall.
  intros r Hr. apply in_map_iff in Hr as (a & <- & _).
  by rewrite flip_triples_length12.
Qed.

(** C9: for a 3D geometry with a flat detector, parallel or divergent,
    the descriptor that is built carries the size of detector-partition
    axis 0 as its column count and the size of axis 1 as its row count,
    next to the rows of the matching builder. *)
Theorem astra_projection_geometry_3d_counts
    (g : Geometry) (st : GeomState) (n0 n1 : Z) (rest : list Z) :
  is_flat g = true ->
  ndim g = 3 ->
  is_uniform (det_partition g) = true ->
  implementation_cache st !! "astra" = None ->
  shape (det_partition g) = n0 :: n1 :: rest ->
  (is_parallel g = true ->
   parallel3d_wf g ->
   exists proj_geom st',
     astra_projection_geometry (IsGeometry g) st = (Ok proj_geom, st') /\
     proj_geom !! "type" = Some (VStr "parallel3d_vec") /\
     proj_geom !! "DetectorColCount" = Some (VInt n0) /\
     proj_geom !! "DetectorRowCount" = Some (VInt n1) /\
     proj_geom !! "Vectors" =
       Some (VMatrix (map (fun a => flip_triples (parallel3d_row g a))
                          (angles g)))) /\
  (is_divergent g = true ->
   cone_wf g ->
   exists proj_geom st',
     astra_projection_geometry (IsGeometry g) st = (Ok proj_geom, st') /\
     proj_geom !! "type" = Some (VStr "cone_vec") /\
     proj_geom !! "DetectorColCount" = Some (VInt n0) /\
     proj_geom !! "DetectorRowCount" = Some (VInt n1) /\
     proj_geom !! "Vectors" =
       Some (VMatrix (map (fun a => flip_triples (cone_row g a))
                          (angles g)))).
Proof.
  intros Hflat Hdim Hu Hc Hshape.
  pose proof (vec_builders_axis_order_aux g) as (Hcone & Hpar).
  split.
  - intros Hp Hwf. destruct (Hpar Hwf) as (_ & _ & Hvec).
    assert (Hd : is_divergent g = false)
      by (unfold is_parallel, is_divergent in *; by destruct (beam_class g)).
    unfold astra_projection_geometry, mbind, cache_get, cache_set, log_call,
      lift, ret.
    rewrite Hc, Hu, Hp, Hd, Hflat, Hdim, Hshape, Hvec. simpl.
    unfold create_proj_geom. simpl.
    rewrite all_rows_have_flipped
      by (intros a; by apply parallel3d_row_length).
    simpl. rewrite Hc. eexists _, _. split; [reflexivity |]. done.
  - intros Hd Hwf. destruct (Hcone Hwf) as (_ & _ & Hvec).
    assert (Hp : is_parallel g = false)
      by (unfold is_parallel, is_divergent in *; by destruct (beam_class g)).
    unfold astra_projection_geometry, mbind, cache_get, cache_set, log_call,
      lift, ret.
    rewrite Hc, Hu, Hp, Hd, Hflat, Hdim, Hshape, Hvec. simpl.
    unfold create_proj_geom. simpl.
    rewrite all_rows_have_flipped
      by (intros a; by apply cone_row_length).
    simpl. rewrite Hc. eexists _, _. split; [reflexivity |]. done.
Qed.

(** ** Projectors and algorithms *)

Lemma obj_in_directions (direction : StrObj) :
  str_value direction = "forward" \/ str_value direction = "backward" ->
  obj_in direction [Interned "forward"; Interned "backward"] = true.
Proof.
  intros H. unfold obj_in, py_eq. simpl.
  destruct H as [-> | ->]; simpl; by rewrite ?orb_true_r.
Qed.

(** C8, as the code has it: with [ndim = 3] and the CPU implementation,
    [astra_projector] raises [ValueError] once the interpolation, the
    implementation name and the presence of the ['type'] key have been
    accepted, and [astra_algorithm] raises [NotImplementedError] once the
    direction has been accepted; neither registers an object with the
    engine. *)
Theorem cpu_3d_rejected :
  (forall vol_interp astra_vol_geom astra_proj_geom impl m,
     str_in vol_interp ["nearest"; "linear"] = true ->
     lower impl = "cpu" ->
     is_Some (astra_proj_geom !! "type") ->
     astra_projector vol_interp astra_vol_geom astra_proj_geom 3 impl m =
       (Err (Raise ValueError "3D projectors not supported on CPU"), m)) /\
  (forall direction vol_id sino_id proj_id m,
     str_value direction = "forward" \/ str_value direction = "backward" ->
     astra_algorithm direction 3 vol_id sino_id proj_id "cpu" m =
       (Err (Raise NotImplementedError
               "3d algorithms for CPU not supported by ASTRA"), m)).
Proof.
  split.
  - intros vol_interp vg pg impl m Hi Himpl [t Ht].
    unfold astra_projector. rewrite Hi, Himpl, Ht. reflexivity.
  - intros direction vol_id sino_id proj_id m Hd.
    unfold astra_algorithm. rewrite (obj_in_directions _ Hd). reflexivity.
Qed.

(** What [astra_algorithm] does with the volume handle: the key is chosen
    by the identity test [direction is 'forward']. *)
Lemma astra_algorithm_volume_key (direction : StrObj) (ndim : Z)
    (vol_id sino_id : Z) (proj_id : option Z) (impl : string)
    (m m' : Machine) (h : Z) :
  astra_algorithm direction ndim vol_id sino_id proj_id impl m = (Ok h, m') ->
  exists algo_cfg,
    algorithm_objs m' = algorithm_objs m ++ [algo_cfg] /\
    h = Z.of_nat (length (algorithm_objs m)) /\
    if py_is direction (Interned "forward")
    then algo_cfg !! "VolumeDataId" = Some (VInt vol_id) /\
         algo_cfg !! "ReconstructionDataId" = None
    else algo_cfg !! "ReconstructionDataId" = Some (VInt vol_id) /\
         algo_cfg !! "VolumeDataId" = None.
Proof.
  unfold astra_algorithm.
  repeat (case_match; [by intros [=] |]).
  unfold mbind, lift.
  destruct (bind _ _) as [algo_type | e]; [| by intros [=]].
  unfold add_algorithm. intros [= <- <-]. simpl.
  eexists. split; [reflexivity |]. split; [reflexivity |].
  destruct (py_is direction (Interned "forward")); done.
Qed.

(** Which storage [astra_data] links with [allow_copy] set: the caller's
    array when it already is single precision and C-contiguous, a new
    array otherwise. *)
Lemma astra_data_allow_copy_storage (astra_geom : pydict)
    (datatype : string) (p : nat) (a : ndarray) (ndim : Z)
    (m m' : Machine) (h : Z) :
  heap m !! p = Some a ->
  astra_data astra_geom datatype (DataNdarray p) ndim true m = (Ok h, m') ->
  exists o,
    data_objs m' = data_objs m ++ [o] /\
    data_storage o =
      Linked (match dtype a with
              | Float32 => if c_contiguous a then p else length (heap m)
              | Float64 => length (heap m)
              end).
Proof.
  intros Hp. unfold astra_data.
  destruct (String.eqb datatype "volume"),
    (String.eqb datatype "projection"),
    (arr_ndim a =? 2) eqn:E2, (arr_ndim a =? 3) eqn:E3,
    (dtype a) eqn:Ed, (c_contiguous a) eqn:Ec, (aligned a) eqn:Ea;
  repeat first
    [ rewrite Hp | rewrite Ed | rewrite Ec | rewrite Ea
    | rewrite E2 | rewrite E3
    | rewrite lookup_app_r by lia | rewrite Nat.sub_diag
    | progress simpl
    | progress cbv [mbind read_array ret raise np_asarray_float32_C
                    engine_link add_data set_heap] ];
  try (by intros [=]);
  intros [= <- <-]; simpl; eexists; split; reflexivity.
Qed.



(** ** Volume geometry: the 2D descriptor, and when a descriptor exists *)

Lemma length2_inv {A} (l : list A) :
  Z.of_nat (length l) = 2 -> exists x y, l = [x; y].
Proof.
  intros E. destruct l as [|x [|y [|? ?]]]; simpl in E; try lia.
  by exists x, y.
Qed.

(** X1: a two-dimensional, uniformly discretized grid that passes the
    anisotropy check gets a descriptor with the first two axes swapped in
    the counts (row count = axis-1 size, column count = axis-0 size), no
    slice count, and a window (the ['option'] entry) that runs over axis 0
    in X and axis 1 in Y; the engine constructor is called with (axis-1
    size, axis-0 size, axis-0 min, axis-0 max, axis-1 min, axis-1 max). *)
Theorem astra_volume_geometry_2d (d : DiscreteLp) :
  lp_is_uniform d = true ->
  lp_ndim d = 2 ->
  grid_wf d ->
  (has_isotropic_cells (lp_partition d) = true \/
   astra_supports "anisotropic_voxels_2d" = Ok true) ->
  exists s0 s1 a0 a1 b0 b1 vol_geom window,
    shape (lp_partition d) = [s0; s1] /\
    min_pt (lp_partition d) = [a0; a1] /\
    max_pt (lp_partition d) = [b0; b1] /\
    astra_volume_geometry (IsDiscreteLp d) = Ok vol_geom /\
    create_vol_geom [VInt s1; VInt s0;
                     VFloat a0; VFloat b0; VFloat a1; VFloat b1] =
      Ok vol_geom /\
    vol_geom !! "GridRowCount" = Some (VInt s1) /\
    vol_geom !! "GridColCount" = Some (VInt s0) /\
    vol_geom !! "GridSliceCount" = None /\
    vol_geom !! "option" = Some (VDict window) /\
    window !! "WindowMinX" = Some (VFloat a0) /\
    window !! "WindowMaxX" = Some (VFloat b0) /\
    window !! "WindowMinY" = Some (VFloat a1) /\
    window !! "WindowMaxY" = Some (VFloat b1) /\
    window !! "WindowMinZ" = None.
Proof.
  intros Hu Hn (Hs & Hmin & Hmax) Hiso.
  rewrite Hn in Hs, Hmin, Hmax.
  destruct (length2_inv _ Hs) as (s0 & s1 & Es).
  destruct (length2_inv _ Hmin) as (a0 & a1 & Ea).
  destruct (length2_inv _ Hmax) as (b0 & b1 & Eb).
  exists s0, s1, a0, a1, b0, b1.
  assert (E : astra_volume_geometry (IsDiscreteLp d) =
    create_vol_geom [VInt s1; VInt s0;
                     VFloat a0; VFloat b0; VFloat a1; VFloat b1]).
  { unfold astra_volume_geometry. rewrite Hu, Hn, Es, Ea, Eb. simpl.
    destruct Hiso as [Hiso | Hsup].
    - rewrite Hiso. reflexivity.
    - destruct (has_isotropic_cells (lp_partition d)); [reflexivity |].
      simpl. rewrite Hsup. reflexivity. }
  rewrite E. eexists _, _. split_and!; try done; reflexivity.
Qed.

(** X2: for a grid with one shape, minimum and maximum entry per axis, a
    descriptor is produced exactly when the grid is uniformly discretized,
    has dimension 2 or 3, and has isotropic cells or the engine supports
    anisotropic voxels of that dimension. *)
Theorem astra_volume_geometry_ok_iff (d : DiscreteLp) (sup2 sup3 : bool) :
  grid_wf d ->
  astra_supports "anisotropic_voxels_2d" = Ok sup2 ->
  astra_supports "anisotropic_voxels_3d" = Ok sup3 ->
  is_ok (astra_volume_geometry (IsDiscreteLp d)) =
    lp_is_uniform d &&
    (((lp_ndim d =? 2) && (has_isotropic_cells (lp_partition d) || sup2)) ||
     ((lp_ndim d =? 3) && (has_isotropic_cells (lp_partition d) || sup3))).
Proof.
  intros (Hs & Hmin & Hmax) H2 H3.
  unfold astra_volume_geometry.
  destruct (lp_is_uniform d); simpl; [| reflexivity].
  destruct (lp_ndim d =? 2) eqn:E2.
  - apply Z.eqb_eq in E2. rewrite E2 in Hs, Hmin, Hmax.
    destruct (length2_inv _ Hs) as (s0 & s1 & ->).
    destruct (length2_inv _ Hmin) as (a0 & a1 & ->).
    destruct (length2_inv _ Hmax) as (b0 & b1 & ->).
    rewrite E2, H2. simpl.
    destruct (has_isotropic_cells (lp_partition d)), sup2; reflexivity.
  - destruct (lp_ndim d =? 3) eqn:E3; [| reflexivity].
    apply Z.eqb_eq in E3. rewrite E3 in Hs, Hmin, Hmax.
    destruct (length3_inv _ Hs) as (s0 & s1 & s2 & ->).
    destruct (length3_inv _ Hmin) as (a0 & a1 & a2 & ->).
    destruct (length3_inv _ Hmax) as (b0 & b1 & b2 & ->).
    rewrite H3. simpl.
    destruct (has_isotropic_cells (lp_partition d)), sup3; reflexivity.
Qed.

(** X3: a uniformly discretized grid of a dimension other than 2 and 3 is
    rejected with [ValueError]; its shape and extent are not looked at. *)
Theorem astra_volume_geometry_bad_dimension (d : DiscreteLp) :
  lp_is_uniform d = true ->
  lp_ndim d <> 2 ->
  lp_ndim d <> 3 ->
  astra_volume_geometry (IsDiscreteLp d) =
    Err (Raise ValueError
           "{}-dimensional volume geometries not supported by ASTRA").
Proof.
  intros Hu H2 H3. unfold astra_volume_geometry. rewrite Hu. simpl.
  apply Z.eqb_neq in H2, H3. by rewrite H2, H3.
Qed.

(** X4: a three-dimensional, uniformly discretized grid with anisotropic
    cells is rejected with [NotImplementedError] when the engine does not
    support ['anisotropic_voxels_3d'], the feature the matrix ties to
    versions from 1.8 on. *)
Theorem astra_volume_geometry_3d_anisotropic (d : DiscreteLp) :
  lp_is_uniform d = true ->
  lp_ndim d = 3 ->
  has_isotropic_cells (lp_partition d) = false ->
  astra_supports "anisotropic_voxels_3d" = Ok false ->
  ASTRA_FEATURES !! "anisotropic_voxels_3d" = Some (ReqStr ">=1.8") /\
  astra_volume_geometry (IsDiscreteLp d) =
    Err (Raise NotImplementedError
           "non-isotropic voxels in 3d volumes not supported by ASTRA v{}").
Proof.
  intros Hu Hn Hiso Hsup. split; [reflexivity |].
  unfold astra_volume_geometry. rewrite Hu, Hn, Hiso. simpl.
  rewrite Hsup. reflexivity.
Qed.

(** ** Vector builders: shape of the result, and the reordering twice *)

Lemma broadcast_to_length (n : nat) (v w : list float) :
  broadcast_to n v = Ok w -> length w = n.
Proof.
  unfold broadcast_to. case_decide as E.
  - by intros [= <-].
  - destruct v as [|x [|? ?]]; intros [=]. subst. apply length_replicate.
Qed.

Lemma setitem_slice_shape (n k i lo hi : nat) (v : list float)
    (vs vs' : matrix) :
  (lo <= hi)%nat -> (hi <= k)%nat ->
  has_shape n k vs ->
  setitem_slice vs i lo hi v = Ok vs' ->
  has_shape n k vs'.
Proof.
  intros Hlo Hhi [Hn Hk]. unfold setitem_slice.
  destruct (vs !! i) as [row |] eqn:Er; [| by intros [=]].
  destruct (broadcast_to (hi - lo) v) as [w |] eqn:Ew; [| by intros [=]].
  simpl. intros [= <-]. split.
  - by rewrite length_insert.
  - apply Forall_insert; [exact Hk |].
    apply broadcast_to_length in Ew.
    assert (Hrow : length row = k)
      by (eapply (proj1 (Forall_lookup _ vs) Hk); eauto).
    rewrite !length_app, length_take, length_drop. lia.
Qed.

Lemma for_enumerate_shape (n k : nat)
    (body : nat -> float -> matrix -> result matrix) :
  (forall i a vs vs',
     has_shape n k vs -> body i a vs = Ok vs' -> has_shape n k vs') ->
  forall angs i vs vs',
    has_shape n k vs ->
    for_enumerate body i angs vs = Ok vs' ->
    has_shape n k vs'.
Proof.
  intros Hbody. induction angs as [|a angs IH]; intros i vs vs' Hs; simpl.
  - by intros [= <-].
  - destruct (body i a vs) as [vs1 |] eqn:E1; [| by intros [=]].
    simpl. apply IH. eapply Hbody; eauto.
Qed.

Lemma np_zeros_shape (n k : nat) : has_shape n k (np_zeros n k).
Proof.
  split; [apply length_replicate |].
  apply Forall_replicate, length_replicate.
Qed.

Lemma take_columns_length (row : list float) (ind : list nat)
    (r : list float) :
  take_columns row ind = Ok r -> length r = length ind.
Proof.
  revert r. induction ind as [|j ind IH]; intros r; simpl.
  - by intros [= <-].
  - destruct (getitem row j); [| by intros [=]]. simpl.
    destruct (take_columns row ind) as [xs |]; [| by intros [=]].
    simpl. intros [= <-]. simpl. f_equal. by apply IH.
Qed.

Lemma getitem_columns_shape (vs vs' : matrix) (ind : list nat) :
  getitem_columns vs ind = Ok vs' ->
  has_shape (length vs) (length ind) vs'.
Proof.
  revert vs'. induction vs as [|row vs IH]; intros vs'; simpl.
  - intros [= <-]. by split.
  - destruct (take_columns row ind) as [r |] eqn:Er; [| by intros [=]].
    simpl. destruct (getitem_columns vs ind) as [rs |]; [| by intros [=]].
    simpl. intros [= <-]. destruct (IH rs eq_refl) as [Hn Hk].
    split; [simpl; by rewrite Hn |].
    constructor; [by eapply take_columns_length | exact Hk].
Qed.

Ltac slice_steps k :=
  repeat match goal with
  | |- bind ?r _ = Ok _ -> _ =>
      let E := fresh "E" in
      destruct r eqn:E; [simpl | by intros [=]]
  | H : setitem_slice ?v _ _ _ _ = Ok _, Hs : has_shape ?n k ?v |- _ =>
      eapply (setitem_slice_shape n k) in H; [| lia | lia | exact Hs]
  end.

Lemma conebeam_3d_body_shape (g : Geometry) (n i : nat) (a : float)
    (vs vs' : matrix) :
  has_shape n 12 vs -> conebeam_3d_body g i a vs = Ok vs' ->
  has_shape n 12 vs'.
Proof.
  intros Hs. unfold conebeam_3d_body. slice_steps 12%nat.
  intros E5. slice_steps 12%nat. assumption.
Qed.

Lemma parallel_3d_body_shape (g : Geometry) (n i : nat) (a : float)
    (vs vs' : matrix) :
  has_shape n 12 vs -> parallel_3d_body g i a vs = Ok vs' ->
  has_shape n 12 vs'.
Proof.
  intros Hs. unfold parallel_3d_body. slice_steps 12%nat.
  intros E5. slice_steps 12%nat. assumption.
Qed.

Lemma conebeam_2d_body_shape (g : Geometry) (n i : nat) (a : float)
    (vs vs' : matrix) :
  has_shape n 6 vs -> conebeam_2d_body g i a vs = Ok vs' ->
  has_shape n 6 vs'.
Proof.
  intros Hs. unfold conebeam_2d_body. slice_steps 6%nat.
  intros E5. slice_steps 6%nat. assumption.
Qed.

(** X5: whatever the geometry's queries return, an array that a builder
    hands back has one row per angle, of 12 entries for the cone and
    parallel-3D builders and of 6 entries for the fan builder. *)
Theorem vec_builders_shape (g : Geometry) (vs : matrix) :
  (astra_conebeam_3d_geom_to_vec g = Ok vs ->
   has_shape (length (angles g)) 12 vs) /\
  (astra_parallel_3d_geom_to_vec g = Ok vs ->
   has_shape (length (angles g)) 12 vs) /\
  (astra_conebeam_2d_geom_to_vec g = Ok vs ->
   has_shape (length (angles g)) 6 vs).
Proof.
  split; [| split].
  - unfold astra_conebeam_3d_geom_to_vec.
    destruct (for_enumerate _ _ _ _) as [rows |] eqn:E; [| by intros [=]].
    simpl. intros Hc.
    eapply for_enumerate_shape in E;
      [| intros; by eapply conebeam_3d_body_shape | apply np_zeros_shape].
    apply getitem_columns_shape in Hc. by rewrite (proj1 E) in Hc.
  - unfold astra_parallel_3d_geom_to_vec.
    destruct (for_enumerate _ _ _ _) as [rows |] eqn:E; [| by intros [=]].
    simpl. intros Hc.
    eapply for_enumerate_shape in E;
      [| intros; by eapply parallel_3d_body_shape | apply np_zeros_shape].
    apply getitem_columns_shape in Hc. by rewrite (proj1 E) in Hc.
  - unfold astra_conebeam_2d_geom_to_vec. intros E.
    eapply for_enumerate_shape in E;
      [exact E | intros; by eapply conebeam_2d_body_shape
      | apply np_zeros_shape].
Qed.

Lemma flip_triples_involutive12 (row : list float) :
  length row = 12%nat -> flip_triples (flip_triples row) = row.
Proof.
  intros E.
  do 12 (destruct row as [|? row]; simpl in E; try lia).
  destruct row; simpl in E; [reflexivity | lia].
Qed.

Lemma getitem_columns_newind (vs : matrix) :
  Forall (fun row => length row = 12%nat) vs ->
  getitem_columns vs newind = Ok (map flip_triples vs).
Proof.
  induction 1 as [|row vs Hrow Hk IH]; [reflexivity |].
  cbn [getitem_columns map].
  rewrite take_columns_newind by done. rewrite IH. reflexivity.
Qed.

(** X6: on an array with rows of 12 entries, reordering the columns by
    [newind] twice gives the array back: the reordering is its own
    inverse. *)
Theorem getitem_columns_newind_twice (n : nat) (vs : matrix) :
  has_shape n 12 vs ->
  (vs' <- getitem_columns vs newind;; getitem_columns vs' newind) = Ok vs.
Proof.
  intros [_ Hk]. rewrite getitem_columns_newind by done.
  cbn [bind]. rewrite getitem_columns_newind.
  - f_equal. induction Hk as [|row vs Hrow Hk IH]; [reflexivity |].
    cbn [map]. by rewrite flip_triples_involutive12, IH.
  - apply Forall_map. eapply Forall_impl; [exact Hk |].
    intros row Hrow. by apply flip_triples_length12.
Qed.

(** X7: with no angles the three builders return the empty array, without
    any query to the geometry. *)
Theorem vec_builders_no_angles (g : Geometry) :
  angles g = [] ->
  astra_conebeam_3d_geom_to_vec g = Ok [] /\
  astra_parallel_3d_geom_to_vec g = Ok [] /\
  astra_conebeam_2d_geom_to_vec g = Ok [].
Proof.
  intros E.
  unfold astra_conebeam_3d_geom_to_vec, astra_parallel_3d_geom_to_vec,
    astra_conebeam_2d_geom_to_vec.
  by rewrite E.
Qed.

(** X8: when the source position at the first angle is a vector of a
    length other than 3 and 1, the slice assignment of the cone builder
    cannot broadcast it and the builder raises [ValueError]. *)
Theorem astra_conebeam_3d_bad_source (g : Geometry) (a : float)
    (rest : list float) :
  angles g = a :: rest ->
  length (src_position g a) <> 3%nat ->
  length (src_position g a) <> 1%nat ->
  astra_conebeam_3d_geom_to_vec g =
    Err (Raise ValueError "could not broadcast input array").
Proof.
  intros E H3 H1. unfold astra_conebeam_3d_geom_to_vec. rewrite E. simpl.
  unfold conebeam_3d_body, setitem_slice. simpl.
  unfold broadcast_to. rewrite decide_False by exact H3.
  destruct (src_position g a) as [|x [|? ?]]; simpl in *; done.
Qed.

(** ** Projection geometry: the 2D variants and the cache as a whole *)

(** X9: a parallel-beam 2D geometry with a flat, uniformly partitioned
    detector and no cached descriptor gets the parametric descriptor
    (type ['parallel'], first cell side as detector width, detector size as
    count, the angles as they are); no vector builder is called, and the
    descriptor is stored under ['astra']. *)
Theorem astra_projection_geometry_parallel2d
    (g : Geometry) (st : GeomState) (det_width : float) (rest : list float) :
  is_parallel g = true ->
  is_flat g = true ->
  ndim g = 2 ->
  is_uniform (det_partition g) = true ->
  implementation_cache st !! "astra" = None ->
  cell_sides (det_partition g) = det_width :: rest ->
  let proj_geom : pydict :=
    <["type" := VStr "parallel"]>
    (<["DetectorWidth" := VFloat det_width]>
    (<["DetectorCount" := VInt (det_size (detector g))]>
    (<["ProjectionAngles" := VArray (angles g)]> ∅))) in
  astra_projection_geometry (IsGeometry g) st =
    (Ok proj_geom,
     {| implementation_cache :=
          <["astra" := proj_geom]> (implementation_cache st);
        calls := calls st ++ ["create_proj_geom"] |}).
Proof.
  intros Hp Hflat Hdim Hu Hc Hcs proj_geom.
  unfold astra_projection_geometry, mbind, cache_get, cache_set, log_call,
    lift, ret.
  rewrite Hc, Hu, Hp, Hflat, Hdim, Hcs. simpl. by rewrite Hc.
Qed.

Lemma fan_row_length (g : Geometry) (a : float) :
  fan_wf g -> length (fan_row g a) = 6%nat.
Proof.
  intros (Hs & Hd & Hu & _). unfold fan_row, scale.
  rewrite !length_app, !length_map, Hs, Hd, Hu. reflexivity.
Qed.

Lemma fan_rows (g : Geometry) :
  fan_wf g ->
  astra_conebeam_2d_geom_to_vec g = Ok (map (fan_row g) (angles g)).
Proof.
  intros Hwf. unfold astra_conebeam_2d_geom_to_vec.
  apply (for_enumerate_fill _ (fan_row g) _
           (fun i a vs => conebeam_2d_body_row g i a vs Hwf)
           (angles g) []).
Qed.

(** X10: a divergent-beam 2D geometry with a flat, uniformly partitioned
    detector and no cached descriptor gets a ['fanflat_vec'] descriptor
    with the detector size as count and the rows of the fan builder; the
    builder and the constructor are each called once, and the descriptor
    is stored under ['astra']. *)
Theorem astra_projection_geometry_fan2d (g : Geometry) (st : GeomState) :
  is_divergent g = true ->
  is_flat g = true ->
  ndim g = 2 ->
  is_uniform (det_partition g) = true ->
  implementation_cache st !! "astra" = None ->
  fan_wf g ->
  let proj_geom : pydict :=
    <["type" := VStr "fanflat_vec"]>
    (<["DetectorCount" := VInt (det_size (detector g))]>
    (<["Vectors" := VMatrix (map (fan_row g) (angles g))]> ∅)) in
  astra_projection_geometry (IsGeometry g) st =
    (Ok proj_geom,
     {| implementation_cache :=
          <["astra" := proj_geom]> (implementation_cache st);
        calls := calls st ++
                 ["astra_conebeam_2d_geom_to_vec"; "create_proj_geom"] |}).
Proof.
  intros Hd Hflat Hdim Hu Hc Hwf proj_geom.
  assert (Hp : is_parallel g = false)
    by (unfold is_parallel, is_divergent in *; by destruct (beam_class g)).
  assert (Hrows : all_rows_have 6 (map (fan_row g) (angles g)) = true).
  { unfold all_rows_have. apply forallb_forall. intros r Hr.
    apply in_map_iff in Hr as (a & <- & _).
    by rewrite fan_row_length. }
  unfold astra_projection_geometry, mbind, cache_get, cache_set, log_call,
    lift, ret.
  rewrite Hc, Hu, Hp, Hd, Hflat, Hdim, (fan_rows g Hwf). simpl.
  unfold create_proj_geom. simpl. rewrite Hrows. simpl.
  rewrite Hc. by rewrite <- app_assoc.
Qed.

(** What a call does to the cache: nothing, or one insertion under
    ['astra'] of the descriptor it returns, and that only on a miss. *)
Lemma astra_projection_geometry_cache_effect (geometry : GeomArg)
    (st st' : GeomState) (r : result pydict) :
  astra_projection_geometry geometry st = (r, st') ->
  implementation_cache st' = implementation_cache st \/
  exists proj_geom,
    r = Ok proj_geom /\
    implementation_cache st !! "astra" = None /\
    implementation_cache st' =
      <["astra" := proj_geom]> (implementation_cache st).
Proof.
  destruct geometry as [g |]; [| intros [= <- <-]; by left].
  unfold astra_projection_geometry.
  unfold mbind at 1. unfold cache_get at 1.
  destruct (implementation_cache st !! "astra") as [pg |] eqn:Ec.
  { unfold ret. intros [= <- <-]. by left. }
  destruct (negb (is_uniform (det_partition g)));
    [intros [= <- <-]; by left |].
  unfold mbind at 1.
  match goal with
  | |- context [match ?blk st with _ => _ end] =>
      assert (Hk : keeps_cache blk)
        by (repeat case_match; keeps_cache_tac);
      specialize (Hk st); destruct (blk st) as [[pg | e] s1]
  end; simpl in Hk.
  - unfold mbind, cache_get, cache_set, ret. rewrite Hk, Ec.
    intros [= <- <-]. simpl. right. exists pg. by rewrite Hk.
  - intros [= <- <-]. by left.
Qed.

(** X11: a call never touches the cache entries of other back-ends, never
    replaces an entry already stored under ['astra'], and after a call
    that returns a descriptor that descriptor is the entry under
    ['astra']. *)
Theorem astra_projection_geometry_cache_frame (geometry : GeomArg)
    (st st' : GeomState) (r : result pydict) :
  astra_projection_geometry geometry st = (r, st') ->
  (forall key, key <> "astra" ->
     implementation_cache st' !! key = implementation_cache st !! key) /\
  (forall old, implementation_cache st !! "astra" = Some old ->
     implementation_cache st' !! "astra" = Some old) /\
  (forall proj_geom, r = Ok proj_geom ->
     implementation_cache st' !! "astra" = Some proj_geom).
Proof.
  intros E. pose proof (astra_projection_geometry_cache_effect _ _ _ _ E)
    as [Hsame | (pg & -> & Hnone & Hins)].
  - rewrite Hsame. split; [done |]. split; [done |].
    intros pg ->. destruct geometry as [g |]; [| discriminate E].
    rewrite <- Hsame. eapply astra_projection_geometry_stores, E.
  - rewrite Hins. split; [| split].
    + intros key Hk. by rewrite lookup_insert_ne.
    + intros old Hold. congruence.
    + intros pg' [= <-]. apply lookup_insert_eq.
Qed.

(** ** Projectors: type resolution, validation, failures *)

Lemma str_in_In (s : string) (l : list string) :
  str_in s l = true -> In s l.
Proof.
  unfold str_in. intros H. apply existsb_exists in H as (t & Ht & E).
  apply String.eqb_eq in E. by subst.
Qed.

(** X12: the two projector tables cover every accepted geometry type, a
    vector variant resolves like its base type, and the GPU table does
    not depend on the interpolation: 2D categories give ['cuda'], 3D
    categories ['cuda3d']. *)
Theorem projector_tables_complete (proj_type vol_interp : string) :
  str_in proj_type proj_types = true ->
  str_in vol_interp ["nearest"; "linear"] = true ->
  (by_interp <- dict_getitem type_map_cpu proj_type;;
   dict_getitem by_interp vol_interp) =
    Ok (cpu_projector_type (base_category proj_type) vol_interp) /\
  dict_getitem type_map_cuda proj_type =
    Ok (cuda_projector_type (base_category proj_type)).
Proof.
  intros Hp Hi. apply str_in_In in Hp, Hi. simpl in Hp, Hi.
  destruct Hi as [<- | [<- | []]];
    destruct Hp as [<- | [<- | [<- | [<- | [<- | [<- | [<- | []]]]]]]];
    split; vm_compute; reflexivity.
Qed.

(** X13: a request that passes the validations is registered with the
    engine: the handle is the position of the new projector, the 2D
    factory is used for [ndim = 2] and the 3D factory otherwise, and the
    configuration holds the resolved type, both descriptors as given, and
    the density-weighting option exactly for cone types on an engine that
    supports it. *)
Theorem astra_projector_ok (vol_interp : string)
    (astra_vol_geom astra_proj_geom : pydict) (ndim : Z) (impl : string)
    (proj_type : string) (sup : bool) (m : Machine) :
  str_in vol_interp ["nearest"; "linear"] = true ->
  lower impl = "cpu" \/ lower impl = "cuda" ->
  astra_proj_geom !! "type" = Some (VStr proj_type) ->
  str_in proj_type proj_types = true ->
  ~ (ndim = 3 /\ lower impl = "cpu") ->
  (str_in proj_type ["cone"; "cone_vec"] = true ->
   astra_supports "cone3d_hacky_density_weighting" = Ok sup) ->
  astra_projector vol_interp astra_vol_geom astra_proj_geom ndim impl m =
    (Ok (Z.of_nat (length (projector_objs m))),
     with_projector m (if ndim =? 2 then 2 else 3)
       (projector_cfg
          (if String.eqb (lower impl) "cpu"
           then cpu_projector_type (base_category proj_type) vol_interp
           else cuda_projector_type (base_category proj_type))
          astra_vol_geom astra_proj_geom
          (str_in proj_type ["cone"; "cone_vec"] && sup))).
Proof.
  intros Hi Himpl Ht Hp H3 Hsup.
  destruct (projector_tables_complete _ _ Hp Hi) as [Hcpu Hcuda].
  unfold astra_projector. rewrite Hi, Ht. fold proj_types. rewrite Hp.
  assert (Hok : str_in (lower impl) ["cpu"; "cuda"] = true)
    by (destruct Himpl as [-> | ->]; reflexivity).
  rewrite Hok. cbn [negb].
  assert (Hgate : (ndim =? 3) && String.eqb (lower impl) "cpu" = false).
  { destruct (ndim =? 3) eqn:E3; [| reflexivity].
    destruct (String.eqb (lower impl) "cpu") eqn:Ec; [| reflexivity].
    apply Z.eqb_eq in E3. apply String.eqb_eq in Ec. tauto. }
  rewrite Hgate. unfold mbind, lift.
  assert (Htype :
    (if String.eqb (lower impl) "cpu"
     then by_interp <- dict_getitem type_map_cpu proj_type;;
          dict_getitem by_interp vol_interp
     else dict_getitem type_map_cuda proj_type) =
    Ok (if String.eqb (lower impl) "cpu"
        then cpu_projector_type (base_category proj_type) vol_interp
        else cuda_projector_type (base_category proj_type)))
    by (destruct (String.eqb (lower impl) "cpu"); assumption).
  rewrite Htype.
  destruct (str_in proj_type ["cone"; "cone_vec"]) eqn:Econe.
  - rewrite (Hsup eq_refl). cbn [andb].
    destruct (ndim =? 2), sup; reflexivity.
  - cbn [andb]. destruct (ndim =? 2); reflexivity.
Qed.

(** X14: the validations of [astra_projector], in their order: an unknown
    interpolation, an implementation other than cpu/cuda (in any letter
    case), a descriptor without ['type'], and, for a request that is not
    a 3D one on the CPU (that one is turned down before the type is
    read), a ['type'] that is not one of the seven known strings each
    raise [ValueError] and leave the engine as it was. *)
Theorem astra_projector_rejects (vol_interp : string)
    (astra_vol_geom astra_proj_geom : pydict) (ndim : Z) (impl : string)
    (m : Machine) :
  (str_in vol_interp ["nearest"; "linear"] = false ->
   astra_projector vol_interp astra_vol_geom astra_proj_geom ndim impl m =
     (Err (Raise ValueError "`vol_interp` '{}' not understood"), m)) /\
  (str_in vol_interp ["nearest"; "linear"] = true ->
   str_in (lower impl) ["cpu"; "cuda"] = false ->
   astra_projector vol_interp astra_vol_geom astra_proj_geom ndim impl m =
     (Err (Raise ValueError "`impl` '{}' not understood"), m)) /\
  (str_in vol_interp ["nearest"; "linear"] = true ->
   str_in (lower impl) ["cpu"; "cuda"] = true ->
   astra_proj_geom !! "type" = None ->
   astra_projector vol_interp astra_vol_geom astra_proj_geom ndim impl m =
     (Err (Raise ValueError "invalid projection geometry dict {}"), m)) /\
  (forall type_val,
   str_in vol_interp ["nearest"; "linear"] = true ->
   str_in (lower impl) ["cpu"; "cuda"] = true ->
   ~ (ndim = 3 /\ lower impl = "cpu") ->
   astra_proj_geom !! "type" = Some type_val ->
   (forall proj_type,
      type_val = VStr proj_type -> str_in proj_type proj_types = false) ->
   astra_projector vol_interp astra_vol_geom astra_proj_geom ndim impl m =
     (Err (Raise ValueError "invalid geometry type {!r}"), m)).
Proof.
  unfold astra_projector. split_and!.
  - by intros ->.
  - by intros -> ->.
  - by intros -> -> ->.
  - intros type_val -> -> Hgate -> Htype. cbn [negb].
    assert (Hg : (ndim =? 3) && String.eqb (lower impl) "cpu" = false).
    { destruct (ndim =? 3) eqn:E3; [| reflexivity].
      destruct (String.eqb (lower impl) "cpu") eqn:Ec; [| reflexivity].
      apply Z.eqb_eq in E3. apply String.eqb_eq in Ec.
      exfalso. apply Hgate. by split. }
    rewrite Hg. destruct type_val; try reflexivity.
    fold proj_types. by rewrite (Htype _ eq_refl).
Qed.

(** X15: a call of [astra_projector] that fails registers nothing: the
    engine and the host memory are as before. *)
Theorem astra_projector_failure (vol_interp : string)
    (astra_vol_geom astra_proj_geom : pydict) (ndim : Z) (impl : string)
    (m m' : Machine) (e : exn) :
  astra_projector vol_interp astra_vol_geom astra_proj_geom ndim impl m =
    (Err e, m') ->
  m' = m.
Proof.
  unfold astra_projector, mbind, lift, raise, add_projector.
  repeat case_match; by intros [=].
Qed.

Lemma lower_ascii_idempotent (c : ascii) :
  lower_ascii (lower_ascii c) = lower_ascii c.
Proof. destruct c as [[] [] [] [] [] [] [] []]; reflexivity. Qed.

Lemma lower_idempotent (s : string) : lower (lower s) = lower s.
Proof.
  induction s as [|c s IH]; [reflexivity |].
  simpl. by rewrite lower_ascii_idempotent, IH.
Qed.

(** X16: [astra_projector] reads the implementation name in lower case:
    a name and its lower-case form give the same result. *)
Theorem astra_projector_impl_case (vol_interp : string)
    (astra_vol_geom astra_proj_geom : pydict) (ndim : Z) (impl : string)
    (m : Machine) :
  astra_projector vol_interp astra_vol_geom astra_proj_geom ndim impl m =
  astra_projector vol_interp astra_vol_geom astra_proj_geom ndim (lower impl) m.
Proof. unfold astra_projector. by rewrite lower_idempotent. Qed.

(** ** Algorithms: configuration, validation, failures *)

(** X17: a request that passes the validations is registered with the
    engine: the handle is the position of the new algorithm, its type is
    FP or BP by the text of the direction, with 3D for [ndim = 3] and
    _CUDA for the GPU, the projector handle (or [None], allowed on the
    GPU) and the projection-data handle are stored as given, and the
    volume handle is stored under the key picked by the identity test on
    the direction. *)
Theorem astra_algorithm_ok (direction : StrObj) (ndim : Z)
    (vol_id sino_id : Z) (proj_id : option Z) (impl : string) (m : Machine) :
  str_value direction = "forward" \/ str_value direction = "backward" ->
  ndim = 2 \/ ndim = 3 ->
  impl = "cpu" \/ impl = "cuda" ->
  ~ (ndim = 3 /\ impl = "cpu") ->
  ~ (proj_id = None /\ impl = "cpu") ->
  astra_algorithm direction ndim vol_id sino_id proj_id impl m =
    (Ok (Z.of_nat (length (algorithm_objs m))),
     with_algorithm m
       (<[(if py_is direction (Interned "forward")
           then "VolumeDataId" else "ReconstructionDataId") := VInt vol_id]>
        (<["type" := VStr (algorithm_type
                             (String.eqb (str_value direction) "forward")
                             ndim impl)]>
        (<["ProjectorId" := id_val proj_id]>
        (<["ProjectionDataId" := VInt sino_id]> ∅))))).
Proof.
  intros Hd Hn Hi H3 Hp.
  unfold astra_algorithm. rewrite (obj_in_directions _ Hd).
  assert (Hproj : match proj_id with
                  | None => String.eqb impl "cpu"
                  | Some _ => false
                  end = false).
  { destruct proj_id; [reflexivity |].
    destruct Hi as [-> | ->]; [exfalso; apply Hp; by split | reflexivity]. }
  assert (Htype :
    (by_dim <- dict_getitem algo_map (str_value direction);;
     by_impl <- dict_getitem by_dim ndim;;
     dict_getitem by_impl impl) =
    Ok (VStr (algorithm_type (String.eqb (str_value direction) "forward")
                             ndim impl))).
  { destruct Hd as [-> | ->], Hn as [-> | ->], Hi as [-> | ->];
      try (exfalso; apply H3; by split); vm_compute; reflexivity. }
  rewrite Hproj. unfold mbind, lift. rewrite Htype.
  destruct Hn as [-> | ->], Hi as [-> | ->];
    try (exfalso; apply H3; by split); cbn;
    destruct (py_is direction (Interned "forward")); reflexivity.
Qed.

(** X18: on the CPU a 2D algorithm without a projector handle is rejected
    with [ValueError]; nothing is registered. *)
Theorem astra_algorithm_missing_projector (direction : StrObj)
    (vol_id sino_id : Z) (m : Machine) :
  str_value direction = "forward" \/ str_value direction = "backward" ->
  astra_algorithm direction 2 vol_id sino_id None "cpu" m =
    (Err (Raise ValueError "'cpu' implementation requires projector ID"), m).
Proof.
  intros Hd. unfold astra_algorithm. by rewrite (obj_in_directions _ Hd).
Qed.

Lemma obj_in_directions_false (direction : StrObj) :
  str_value direction <> "forward" ->
  str_value direction <> "backward" ->
  obj_in direction [Interned "forward"; Interned "backward"] = false.
Proof.
  intros Hf Hb. unfold obj_in, py_eq. simpl.
  apply String.eqb_neq in Hf, Hb. rewrite Hf, Hb.
  destruct direction as [s | p s]; simpl in *; [| reflexivity].
  by rewrite Hf, Hb.
Qed.

(** X19: the validations of [astra_algorithm], in their order: a
    direction whose text is neither 'forward' nor 'backward', a dimension
    other than 2 and 3, and an implementation name other than exactly
    'cpu' or 'cuda' (no change of letter case is made here) each raise
    [ValueError] and leave the engine as it was. *)
Theorem astra_algorithm_rejects (direction : StrObj) (ndim : Z)
    (vol_id sino_id : Z) (proj_id : option Z) (impl : string) (m : Machine) :
  (str_value direction <> "forward" ->
   str_value direction <> "backward" ->
   astra_algorithm direction ndim vol_id sino_id proj_id impl m =
     (Err (Raise ValueError "`direction` '{}' not understood"), m)) /\
  (str_value direction = "forward" \/ str_value direction = "backward" ->
   ndim <> 2 -> ndim <> 3 ->
   astra_algorithm direction ndim vol_id sino_id proj_id impl m =
     (Err (Raise ValueError "{}-dimensional projectors not supported"), m)) /\
  (str_value direction = "forward" \/ str_value direction = "backward" ->
   ndim = 2 \/ ndim = 3 ->
   impl <> "cpu" -> impl <> "cuda" ->
   astra_algorithm direction ndim vol_id sino_id proj_id impl m =
     (Err (Raise ValueError "`impl` type '{}' not understood"), m)).
Proof.
  unfold astra_algorithm. split_and!.
  - intros Hf Hb. by rewrite obj_in_directions_false.
  - intros Hd H2 H3. rewrite (obj_in_directions _ Hd).
    apply Z.eqb_neq in H2, H3. by rewrite H2, H3.
  - intros Hd Hn Hc Hg. rewrite (obj_in_directions _ Hd).
    apply String.eqb_neq in Hc, Hg. unfold str_in. simpl.
    rewrite Hc, Hg. by destruct Hn as [-> | ->].
Qed.

(** X20: a call of [astra_algorithm] that fails registers nothing. *)
Theorem astra_algorithm_failure (direction : StrObj) (ndim : Z)
    (vol_id sino_id : Z) (proj_id : option Z) (impl : string)
    (m m' : Machine) (e : exn) :
  astra_algorithm direction ndim vol_id sino_id proj_id impl m = (Err e, m') ->
  m' = m.
Proof.
  unfold astra_algorithm, mbind, lift, raise, add_algorithm.
  repeat case_match; by intros [=].
Qed.

(** X21: a direction whose text is 'backward' always has the volume
    handle stored under ['ReconstructionDataId'], whichever string object
    carries the text, and ['VolumeDataId'] is then absent. *)
Theorem astra_algorithm_backward (direction : StrObj) (ndim : Z)
    (vol_id sino_id : Z) (proj_id : option Z) (impl : string)
    (m m' : Machine) (h : Z) :
  str_value direction = "backward" ->
  astra_algorithm direction ndim vol_id sino_id proj_id impl m = (Ok h, m') ->
  exists algo_cfg,
    algorithm_objs m' = algorithm_objs m ++ [algo_cfg] /\
    algo_cfg !! "ReconstructionDataId" = Some (VInt vol_id) /\
    algo_cfg !! "VolumeDataId" = None.
Proof.
  intros Hd E.
  destruct (astra_algorithm_volume_key _ _ _ _ _ _ _ _ _ E)
    as (algo_cfg & Hobjs & _ & Hkey).
  exists algo_cfg. split; [exact Hobjs |].
  assert (Hne : py_is direction (Interned "forward") = false).
  { destruct direction as [s | p s]; simpl in *; [| reflexivity].
    by subst. }
  by rewrite Hne in Hkey.
Qed.

(** ** Data objects: creation, linking, failures *)

Lemma fails_cleanly_bind {A B} (c : M Machine A) (k : A -> M Machine B) :
  changes_nothing c -> (forall a, fails_cleanly (k a)) ->
  fails_cleanly (mbind c k).
Proof.
  intros Hc Hk m e m'. unfold mbind. specialize (Hc m).
  destruct (c m) as [[a | e1] m1]; simpl in Hc; subst m1.
  - apply Hk.
  - by intros [= _ <-].
Qed.

Lemma changes_nothing_read (p : nat) : changes_nothing (read_array p).
Proof. intros m. unfold read_array. by destruct (heap m !! p). Qed.

Lemma engine_link_fails_cleanly (dim : Z) (kind : string) (geom : pydict)
    (p : nat) :
  fails_cleanly (engine_link dim kind geom p).
Proof.
  intros m e m'. unfold engine_link, mbind, read_array, raise, add_data.
  repeat case_match; intros; by simplify_eq.
Qed.

Lemma copy_then_link_fails_cleanly (dim : Z) (kind : string) (geom : pydict)
    (p : nat) :
  fails_cleanly (data_array <~ np_asarray_float32_C p;;
                 engine_link dim kind geom data_array).
Proof.
  intros m e m'.
  unfold np_asarray_float32_C, engine_link, mbind, read_array, raise, ret,
    add_data, set_heap.
  destruct (heap m !! p) as [a |] eqn:Hp; [| by intros [=]].
  destruct (dtype a) eqn:Ed; [destruct (c_contiguous a) eqn:Ec |]; simpl;
    rewrite ?Hp, ?Ed, ?Ec; simpl;
    rewrite ?lookup_app_r by lia; rewrite ?Nat.sub_diag; simpl;
    repeat case_match; intros; by simplify_eq.
Qed.

Lemma astra_data_fails_cleanly (astra_geom : pydict) (datatype : string)
    (data : DataArg) (ndim : Z) (allow_copy : bool) :
  fails_cleanly (astra_data astra_geom datatype data ndim allow_copy).
Proof.
  unfold astra_data.
  apply fails_cleanly_bind.
  { destruct data; intros m; unfold mbind, read_array, ret, raise;
      try done; by destruct (heap m !! p). }
  intros n. apply fails_cleanly_bind.
  { intros m. by repeat case_match. }
  intros kind. apply fails_cleanly_bind.
  { intros m. by repeat case_match. }
  intros dim. destruct data as [| p | impl p |].
  - intros m e m'. by intros [=].
  - destruct allow_copy;
      [apply copy_then_link_fails_cleanly | apply engine_link_fails_cleanly].
  - destruct allow_copy; [apply copy_then_link_fails_cleanly |].
    case_match; [apply engine_link_fails_cleanly |].
    intros m e m'. by intros [= _ <-].
  - intros m e m'. by intros [= _ <-].
Qed.

(** X22: a call of [astra_data] that fails leaves the host memory and the
    engine as they were: no object is registered and no array is
    allocated. *)
Theorem astra_data_failure (astra_geom : pydict) (datatype : string)
    (data : DataArg) (ndim : Z) (allow_copy : bool)
    (m m' : Machine) (e : exn) :
  astra_data astra_geom datatype data ndim allow_copy m = (Err e, m') ->
  m' = m.
Proof. apply astra_data_fails_cleanly. Qed.

(** X23: when data is given, the [ndim] argument has no effect: the
    dimension of the data is used. *)
Theorem astra_data_ndim_ignored (astra_geom : pydict) (datatype : string)
    (data : DataArg) (ndim ndim' : Z) (allow_copy : bool) (m : Machine) :
  data <> DataNone ->
  astra_data astra_geom datatype data ndim allow_copy m =
  astra_data astra_geom datatype data ndim' allow_copy m.
Proof. intros H. by destruct data. Qed.

(** X24: without data, a new engine-owned buffer of the requested kind
    and dimension is registered under the next handle; the host memory is
    not touched. *)
Theorem astra_data_create (astra_geom : pydict) (datatype : string)
    (ndim : Z) (allow_copy : bool) (m : Machine) :
  datatype = "volume" \/ datatype = "projection" ->
  ndim = 2 \/ ndim = 3 ->
  astra_data astra_geom datatype DataNone ndim allow_copy m =
    (Ok (Z.of_nat (length (data_objs m))),
     with_data m {| data_dim := ndim; data_kind := dtype_str datatype;
                    data_geom := astra_geom; data_storage := Owned |}).
Proof.
  intros [-> | ->] [-> | ->]; reflexivity.
Qed.

(** X25: with [allow_copy] off, a NumPy array or a NumPy-backed element
    that the engine accepts (single precision, C-contiguous, aligned, of
    dimension 2 or 3) is linked in place: the new data object points at
    the caller's array and the host memory is unchanged. *)
Theorem astra_data_zero_copy (astra_geom : pydict) (datatype : string)
    (data : DataArg) (p : nat) (a : ndarray) (ndim : Z) (m : Machine) :
  data = DataNdarray p \/ data = DataLpElement "numpy" p ->
  heap m !! p = Some a ->
  dtype a = Float32 -> c_contiguous a = true -> aligned a = true ->
  arr_ndim a = 2 \/ arr_ndim a = 3 ->
  datatype = "volume" \/ datatype = "projection" ->
  astra_data astra_geom datatype data ndim false m =
    (Ok (Z.of_nat (length (data_objs m))),
     with_data m {| data_dim := arr_ndim a; data_kind := dtype_str datatype;
                    data_geom := astra_geom; data_storage := Linked p |}).
Proof.
  intros Hdata Hp Hd Hc Ha Hn Ht.
  unfold astra_data, mbind, read_array, engine_link, add_data, ret.
  destruct Hdata as [-> | ->], Ht as [-> | ->], Hn as [En | En];
    rewrite Hp, En; simpl; unfold mbind, read_array;
    rewrite Hp, Hd, Hc, Ha; reflexivity.
Qed.

(** X26: with [allow_copy] on, a double-precision array is not linked
    itself: the engine gets a new single-precision, C-contiguous array at
    a fresh address, and neither the call nor a later write of the engine
    through the returned handle changes the caller's array. *)
Theorem astra_data_copy_protects (astra_geom : pydict) (datatype : string)
    (p : nat) (a : ndarray) (ndim : Z) (m : Machine) (vals : list float) :
  heap m !! p = Some a ->
  dtype a = Float64 ->
  arr_ndim a = 2 \/ arr_ndim a = 3 ->
  datatype = "volume" \/ datatype = "projection" ->
  exists m' copy,
    astra_data astra_geom datatype (DataNdarray p) ndim true m =
      (Ok (Z.of_nat (length (data_objs m))), m') /\
    heap m' = heap m ++ [copy] /\
    dtype copy = Float32 /\ c_contiguous copy = true /\
    data_objs m' =
      data_objs m ++
      [{| data_dim := arr_ndim a; data_kind := dtype_str datatype;
          data_geom := astra_geom;
          data_storage := Linked (length (heap m)) |}] /\
    heap m' !! p = Some a /\
    heap (engine_write (Z.of_nat (length (data_objs m))) vals m') !! p =
      Some a.
Proof.
  intros Hp Hd Hn Ht.
  assert (Hlt : (p < length (heap m))%nat) by (eapply lookup_lt_Some; eauto).
  set (copy := {| dtype := Float32; arr_ndim := arr_ndim a;
                  c_contiguous := true; aligned := true;
                  values := values a |}).
  exists (with_data (set_heap (heap m ++ [copy]) m)
            {| data_dim := arr_ndim a; data_kind := dtype_str datatype;
               data_geom := astra_geom;
               data_storage := Linked (length (heap m)) |}), copy.
  split.
  { unfold astra_data, mbind, read_array, np_asarray_float32_C, engine_link,
      add_data, ret, set_heap.
    destruct Ht as [-> | ->], Hn as [En | En];
      rewrite Hp, En; simpl;
      unfold mbind, read_array, engine_link, add_data;
      rewrite Hp, Hd; simpl; unfold mbind, read_array; simpl;
      rewrite lookup_app_r by lia; rewrite Nat.sub_diag; simpl;
      reflexivity. }
  simpl. split_and!; try reflexivity.
  - by rewrite lookup_app_l.
  - unfold engine_write. simpl.
    rewrite Nat2Z.id, lookup_app_r by lia. rewrite Nat.sub_diag. simpl.
    rewrite lookup_app_r by lia. rewrite Nat.sub_diag. simpl.
    rewrite list_lookup_insert_ne by lia. by rewrite lookup_app_l.
Qed.

(** X27: the rejections of [astra_data]: an object that is neither an
    element nor an array raises [TypeError] before anything else is
    looked at; with or without data, an unknown kind of data raises
    [ValueError], and then a dimension other than 2 and 3 (of the data
    when given, of the [ndim] argument otherwise) raises [ValueError];
    and an element that is not NumPy-backed cannot be linked without
    copying ([NotImplementedError]). *)
Theorem astra_data_rejects (astra_geom : pydict) (datatype : string)
    (ndim : Z) (allow_copy : bool) (m : Machine) :
  astra_data astra_geom datatype DataOther ndim allow_copy m =
    (Err (Raise TypeError
       "`data` {!r} is neither DiscreteLpElement instance nor a `numpy.ndarray`"),
     m) /\
  (forall data n,
     data_ndim m data ndim = Some n ->
     datatype <> "volume" -> datatype <> "projection" ->
     astra_data astra_geom datatype data ndim allow_copy m =
       (Err (Raise ValueError "`datatype` {!r} not understood"), m)) /\
  (forall data n,
     data_ndim m data ndim = Some n ->
     datatype = "volume" \/ datatype = "projection" ->
     n <> 2 -> n <> 3 ->
     astra_data astra_geom datatype data ndim allow_copy m =
       (Err (Raise ValueError "{}-dimensional data structures not supported"),
        m)) /\
  (forall impl p a,
     datatype = "volume" \/ datatype = "projection" ->
     heap m !! p = Some a ->
     arr_ndim a = 2 \/ arr_ndim a = 3 ->
     impl <> "numpy" ->
     astra_data astra_geom datatype (DataLpElement impl p) ndim false m =
       (Err (Raise NotImplementedError
          "ASTRA supports data wrapping only for `numpy.ndarray` instances, got {!r}"),
        m)).
Proof.
  split_and!.
  - reflexivity.
  - intros data n Hn Hv Hs. apply String.eqb_neq in Hv, Hs.
    unfold astra_data, mbind, read_array, ret, raise.
    destruct data as [| p | impl p |]; simpl in Hn; [| | | done];
      try (destruct (heap m !! p) as [a |]; [| done]);
      by rewrite Hv, Hs.
  - intros data n Hn Ht H2 H3. apply Z.eqb_neq in H2, H3.
    unfold astra_data, mbind, read_array, ret, raise.
    destruct data as [| p | impl p |]; simpl in Hn; [| | | done];
      try (destruct (heap m !! p) as [a |]; [| done]);
      simpl in Hn; injection Hn as ->;
      destruct Ht as [-> | ->]; simpl; by rewrite H2, H3.
  - intros impl p a Ht Hp Hn Hi. apply String.eqb_neq in Hi.
    unfold astra_data, mbind, read_array, ret, raise.
    destruct Ht as [-> | ->], Hn as [En | En];
      rewrite Hp, En; simpl; by rewrite Hi.
Qed.

(** ** From the projection geometry to the projector *)

Lemma create_proj_geom_type (intype : string) (args : list PyVal)
    (proj_geom : pydict) :
  create_proj_geom intype args = Ok proj_geom ->
  proj_geom !! "type" = Some (VStr intype).
Proof.
  unfold create_proj_geom.
  destruct (String.eqb intype "parallel") eqn:E1.
  { apply String.eqb_eq in E1. subst.
    repeat case_match; intros; simplify_eq. apply lookup_insert_eq. }
  destruct (String.eqb intype "fanflat_vec") eqn:E2.
  { apply String.eqb_eq in E2. subst.
    repeat case_match; intros; simplify_eq. apply lookup_insert_eq. }
  repeat case_match; intros; simplify_eq. apply lookup_insert_eq.
Qed.

(** X28: a descriptor that the dispatcher builds (no cached entry) comes
    from a flat-detector geometry of dimension 2 or 3 and carries the type
    of its variant: ['parallel'] or ['fanflat_vec'] in 2D,
    ['parallel3d_vec'] or ['cone_vec'] in 3D. *)
Theorem astra_projection_geometry_type (g : Geometry) (st st' : GeomState)
    (proj_geom : pydict) :
  implementation_cache st !! "astra" = None ->
  astra_projection_geometry (IsGeometry g) st = (Ok proj_geom, st') ->
  (ndim g = 2 \/ ndim g = 3) /\
  is_flat g = true /\
  proj_geom !! "type" =
    Some (VStr (if ndim g =? 2
                then if is_parallel g then "parallel" else "fanflat_vec"
                else if is_parallel g then "parallel3d_vec" else "cone_vec")).
Proof.
  intros Hc. unfold astra_projection_geometry.
  unfold mbind at 1. unfold cache_get at 1. rewrite Hc.
  destruct (negb (is_uniform (det_partition g))); [by intros [=] |].
  assert (Hpd : is_parallel g = true -> is_divergent g = false)
    by (unfold is_parallel, is_divergent; by destruct (beam_class g)).
  destruct (ndim g =? 2) eqn:E2; [apply Z.eqb_eq in E2 | ];
    (destruct (ndim g =? 3) eqn:E3; [apply Z.eqb_eq in E3 | ]);
    try lia;
    destruct (is_parallel g) eqn:Ep; rewrite ?(Hpd eq_refl);
    destruct (is_flat g), (is_divergent g); cbn [andb];
    unfold mbind, lift, log_call, cache_get, cache_set, ret, raise;
    repeat case_match; intros; simplify_eq;
    (split; [lia |]); (split; [reflexivity |]);
    eauto using create_proj_geom_type.
Qed.

(** X29: a descriptor that the dispatcher builds is always accepted by
    the GPU projector factory for the geometry's dimension: the projector
    is registered with type ['cuda'] in 2D and ['cuda3d'] in 3D, holds the
    descriptor as given, and has density weighting exactly for a cone
    geometry on an engine that supports it. *)
Theorem projection_geometry_feeds_projector (g : Geometry)
    (st st' : GeomState) (proj_geom astra_vol_geom : pydict)
    (vol_interp : string) (sup : bool) (m : Machine) :
  implementation_cache st !! "astra" = None ->
  astra_projection_geometry (IsGeometry g) st = (Ok proj_geom, st') ->
  str_in vol_interp ["nearest"; "linear"] = true ->
  astra_supports "cone3d_hacky_density_weighting" = Ok sup ->
  astra_projector vol_interp astra_vol_geom proj_geom (ndim g) "cuda" m =
    (Ok (Z.of_nat (length (projector_objs m))),
     with_projector m (ndim g)
       (projector_cfg (if ndim g =? 2 then "cuda" else "cuda3d")
          astra_vol_geom proj_geom
          (negb (ndim g =? 2) && negb (is_parallel g) && sup))).
Proof.
  intros Hc Hcall Hi Hsup.
  destruct (astra_projection_geometry_type _ _ _ _ Hc Hcall)
    as (Hn & _ & Ht).
  rewrite (astra_projector_ok vol_interp astra_vol_geom proj_geom (ndim g)
             "cuda" _ sup m Hi (or_intror eq_refl) Ht).
  - destruct Hn as [-> | ->]; destruct (is_parallel g), sup; reflexivity.
  - destruct (ndim g =? 2), (is_parallel g); reflexivity.
  - intros [_ H]. discriminate H.
  - intros _. exact Hsup.
Qed.

End Capability.

(** * Instances *)

(** Under the specification's reading of [pkg_supports], a feature the
    matrix maps to [None] is unsupported for every version and every way
    of evaluating requirements. *)
Lemma anisotropic_voxels_2d_never_supported
    (version : string) (version_satisfies : string -> string -> bool) :
  astra_supports version (pkg_supports_spec version_satisfies)
    "anisotropic_voxels_2d" = Ok false.
Proof. reflexivity. Qed.

(** ** Instances of the volume-geometry properties *)

Lemma astra_volume_geometry_3d_witness :
  exists vol_geom,
    astra_volume_geometry "1.8" (pkg_supports_spec any_version)
      (IsDiscreteLp example_space3) = Ok vol_geom /\
    vol_geom !! "GridColCount" = Some (VInt 200) /\
    vol_geom !! "GridRowCount" = Some (VInt 150) /\
    vol_geom !! "GridSliceCount" = Some (VInt 100) /\
    exists window,
      vol_geom !! "option" = Some (VDict window) /\
      window !! "WindowMinX" = Some (VFloat (-100)%float) /\
      window !! "WindowMaxX" = Some (VFloat 100%float) /\
      window !! "WindowMinY" = Some (VFloat (-75)%float) /\
      window !! "WindowMaxY" = Some (VFloat 75%float) /\
      window !! "WindowMinZ" = Some (VFloat (-50)%float) /\
      window !! "WindowMaxZ" = Some (VFloat 50%float).
Proof.
  destruct (astra_volume_geometry_3d "1.8" (pkg_supports_spec any_version)
              example_space3 eq_refl eq_refl
              (conj eq_refl (conj eq_refl eq_refl)) (or_introl eq_refl))
    as (s0 & s1 & s2 & a0 & a1 & a2 & b0 & b1 & b2 & vol_geom & window &
        Es & Ea & Eb & E & _ & Hc & Hr & Hs & Ho &
        Hx0 & Hx1 & Hy0 & Hy1 & Hz0 & Hz1).
  injection Es as <- <- <-. injection Ea as <- <- <-.
  injection Eb as <- <- <-.
  exists vol_geom. split_and!; try assumption.
  exists window. split_and!; assumption.
Defined.

Lemma astra_volume_geometry_2d_anisotropic_witness :
  astra_volume_geometry "1.8" (pkg_supports_spec any_version)
    (IsDiscreteLp example_space2_aniso) =
    Err (Raise NotImplementedError
           "non-isotropic pixels in 2d volumes not supported by ASTRA v{}").
Proof.
  apply (astra_volume_geometry_2d_anisotropic "1.8"
           (pkg_supports_spec any_version) example_space2_aniso);
    reflexivity.
Defined.

Lemma astra_volume_geometry_nonuniform_witness :
  lp_is_uniform example_space_nonuniform = false /\
  astra_volume_geometry "1.8" (pkg_supports_spec any_version)
    (IsDiscreteLp example_space_nonuniform) =
    Err (Raise ValueError "`discr_reco` {} is not uniformly discretized").
Proof.
  split; [reflexivity |].
  apply (astra_volume_geometry_nonuniform "1.8"
           (pkg_supports_spec any_version) example_space_nonuniform).
  reflexivity.
Defined.

(** ** Instances of the vector-builder properties *)

Lemma example_cone_wf : cone_wf (example_geometry3 DivergentBeamGeometry).
Proof. repeat split; simpl; lia. Defined.

Lemma example_parallel3d_wf :
  parallel3d_wf (example_geometry3 ParallelBeamGeometry).
Proof. repeat split; simpl; lia. Defined.

Lemma example_fan_wf : fan_wf example_geometry2.
Proof. repeat split; simpl; lia. Defined.

Lemma vec_builders_axis_order_witness :
  astra_conebeam_3d_geom_to_vec (example_geometry3 DivergentBeamGeometry) =
    Ok [[0; 8; 7;  0; 0; -1;  0; 2; 0;  3; 0; 0];
        [0.5; 8; 7;  0.5; 0; -1;  0; 2; 0;  3; 0; 0]]%float /\
  astra_parallel_3d_geom_to_vec (example_geometry3 ParallelBeamGeometry) =
    Ok [[-0; -0; -1;  0; 0; -1;  0; 2; 0;  3; 0; 0];
        [-0; -0; -1;  0.5; 0; -1;  0; 2; 0;  3; 0; 0]]%float /\
  astra_conebeam_2d_geom_to_vec example_geometry2 =
    Ok [[7; 0;  -1; 0;  0; 2];
        [7; 0.5;  -1; 0.5;  0; 2]]%float.
Proof.
  destruct (vec_builders_axis_order (example_geometry3 DivergentBeamGeometry))
    as (_ & Hcone & _ & _).
  destruct (vec_builders_axis_order (example_geometry3 ParallelBeamGeometry))
    as (_ & _ & Hpar & _).
  destruct (vec_builders_axis_order example_geometry2) as (_ & _ & _ & Hfan).
  destruct (Hcone example_cone_wf) as (_ & _ & ->).
  destruct (Hpar example_parallel3d_wf) as (_ & _ & ->).
  rewrite (Hfan example_fan_wf).
  repeat split; vm_compute; reflexivity.
Defined.

(** ** Instances of the projection-geometry properties *)

Lemma astra_projection_geometry_cache_hit_witness :
  astra_projection_geometry (IsGeometry example_geometry_nonuniform)
    cached_state = (Ok example_descriptor, cached_state) /\
  exists proj_geom st',
    astra_projection_geometry
      (IsGeometry (example_geometry3 ParallelBeamGeometry)) empty_state =
      (Ok proj_geom, st') /\
    astra_projection_geometry
      (IsGeometry (example_geometry3 ParallelBeamGeometry)) st' =
      (Ok proj_geom, st').
Proof.
  split.
  - apply (proj1 (astra_projection_geometry_cache_hit
                    example_geometry_nonuniform cached_state)).
    reflexivity.
  - assert (Hok : is_ok (fst (astra_projection_geometry
                (IsGeometry (example_geometry3 ParallelBeamGeometry))
                empty_state)) = true) by (vm_compute; reflexivity).
    destruct (astra_projection_geometry
                (IsGeometry (example_geometry3 ParallelBeamGeometry))
                empty_state) as [[proj_geom | e] st'] eqn:E.
    + exists proj_geom, st'. split; [reflexivity |].
      apply (proj2 (astra_projection_geometry_cache_hit
                      (example_geometry3 ParallelBeamGeometry) empty_state)).
      exact E.
    + discriminate Hok.
Defined.

Lemma astra_projection_geometry_failure_witness :
  (fst (astra_projection_geometry NotGeometry cached_state) =
     Err (Raise TypeError "`geometry` {!r} is not a `Geometry` instance") /\
   implementation_cache
     (snd (astra_projection_geometry NotGeometry cached_state)) =
     implementation_cache cached_state) /\
  (fst (astra_projection_geometry (IsGeometry example_geometry_nonuniform)
          empty_state) =
     Err (Raise ValueError "non-uniform detector sampling is not supported") /\
   implementation_cache
     (snd (astra_projection_geometry (IsGeometry example_geometry_nonuniform)
             empty_state)) = ∅) /\
  (fst (astra_projection_geometry
          (IsGeometry (example_geometry3 OtherBeamGeometry)) empty_state) =
     Err (Raise NotImplementedError "unknown ASTRA geometry type {!r}") /\
   implementation_cache
     (snd (astra_projection_geometry
             (IsGeometry (example_geometry3 OtherBeamGeometry)) empty_state))
     = ∅).
Proof.
  destruct (astra_projection_geometry_failure NotGeometry cached_state)
    as (K1 & T1 & _ & _).
  destruct (astra_projection_geometry_failure
              (IsGeometry example_geometry_nonuniform) empty_state)
    as (K2 & _ & T2 & _).
  destruct (astra_projection_geometry_failure
              (IsGeometry (example_geometry3 OtherBeamGeometry)) empty_state)
    as (K3 & _ & _ & T3).
  split; [| split].
  - split; [apply T1; reflexivity | apply K1; vm_compute; reflexivity].
  - split; [apply (T2 _ eq_refl); reflexivity
           | apply K2; vm_compute; reflexivity].
  - split; [apply (T3 _ eq_refl); reflexivity
           | apply K3; vm_compute; reflexivity].
Defined.

Lemma astra_projection_geometry_3d_counts_witness :
  (exists proj_geom st',
     astra_projection_geometry
       (IsGeometry (example_geometry3 ParallelBeamGeometry)) empty_state =
       (Ok proj_geom, st') /\
     proj_geom !! "type" = Some (VStr "parallel3d_vec") /\
     proj_geom !! "DetectorColCount" = Some (VInt 4) /\
     proj_geom !! "DetectorRowCount" = Some (VInt 5)) /\
  (exists proj_geom st',
     astra_projection_geometry
       (IsGeometry (example_geometry3 DivergentBeamGeometry)) empty_state =
       (Ok proj_geom, st') /\
     proj_geom !! "type" = Some (VStr "cone_vec") /\
     proj_geom !! "DetectorColCount" = Some (VInt 4) /\
     proj_geom !! "DetectorRowCount" = Some (VInt 5)).
Proof.
  split.
  - destruct (astra_projection_geometry_3d_counts
                (example_geometry3 ParallelBeamGeometry) empty_state 4 5 []
                eq_refl eq_refl eq_refl eq_refl eq_refl) as [H _].
    destruct (H eq_refl example_parallel3d_wf)
      as (proj_geom & st' & E & Ht & Hc & Hr & _).
    exists proj_geom, st'. repeat split; assumption.
  - destruct (astra_projection_geometry_3d_counts
                (example_geometry3 DivergentBeamGeometry) empty_state 4 5 []
                eq_refl eq_refl eq_refl eq_refl eq_refl) as [_ H].
    destruct (H eq_refl example_cone_wf)
      as (proj_geom & st' & E & Ht & Hc & Hr & _).
    exists proj_geom, st'. repeat split; assumption.
Defined.

(** ** Instances for projectors, algorithms and data *)

Lemma cpu_3d_rejected_witness :
  astra_projector "1.8" (pkg_supports_spec any_version) "nearest" ∅
    (<["type" := VStr "cone_vec"]> ∅) 3 "CPU" empty_machine =
    (Err (Raise ValueError "3D projectors not supported on CPU"),
     empty_machine) /\
  astra_algorithm (Interned "backward") 3 7 8 (Some 9) "cpu" empty_machine =
    (Err (Raise NotImplementedError
            "3d algorithms for CPU not supported by ASTRA"), empty_machine).
Proof.
  split.
  - apply (proj1 (cpu_3d_rejected "1.8" (pkg_supports_spec any_version)));
      [reflexivity | reflexivity | eexists; reflexivity].
  - apply (proj2 (cpu_3d_rejected "1.8" (pkg_supports_spec any_version))).
    right. reflexivity.
Defined.

(** C8 without a precondition on the direction fails for
    [astra_algorithm]: the check of the direction comes first, so a 3D CPU
    request with a direction that is not understood raises the
    [ValueError] on the direction, not the CPU-3D error. *)
Lemma astra_algorithm_cpu_3d_bad_direction :
  astra_algorithm (Interned "sideways") 3 7 8 (Some 9) "cpu" empty_machine =
    (Err (Raise ValueError "`direction` '{}' not understood"),
     empty_machine) /\
  fst (astra_algorithm (Interned "sideways") 3 7 8 (Some 9) "cpu"
         empty_machine) <>
    Err (Raise NotImplementedError
           "3d algorithms for CPU not supported by ASTRA").
Proof. split; [reflexivity | discriminate]. Qed.

(** C3 at a direction string that equals ['forward'] without being the
    interned literal (one computed at run time): the direction passes the
    membership test, the algorithm type is the forward one, and the volume
    handle is stored under ['ReconstructionDataId']; ['VolumeDataId'] is
    not set. *)
Theorem astra_algorithm_forward_not_interned :
  let algo_cfg : pydict :=
    <["type" := VStr "FP_CUDA"]>
    (<["ProjectorId" := VInt 9]>
    (<["ProjectionDataId" := VInt 8]>
    (<["ReconstructionDataId" := VInt 7]> ∅))) in
  py_eq (Allocated 0 "forward") (Interned "forward") = true /\
  py_is (Allocated 0 "forward") (Interned "forward") = false /\
  astra_algorithm (Allocated 0 "forward") 2 7 8 (Some 9) "cuda"
    empty_machine =
    (Ok 0, {| heap := []; data_objs := []; projector_objs := [];
              algorithm_objs := [algo_cfg] |}) /\
  algo_cfg !! "VolumeDataId" = None /\
  algo_cfg !! "ReconstructionDataId" = Some (VInt 7).
Proof. repeat split; vm_compute; reflexivity. Qed.

(** With the interned literal itself the handle goes under
    ['VolumeDataId']. *)
Example astra_algorithm_forward_interned :
  let algo_cfg : pydict :=
    <["type" := VStr "FP_CUDA"]>
    (<["ProjectorId" := VInt 9]>
    (<["ProjectionDataId" := VInt 8]>
    (<["VolumeDataId" := VInt 7]> ∅))) in
  astra_algorithm (Interned "forward") 2 7 8 (Some 9) "cuda"
    empty_machine =
    (Ok 0, {| heap := []; data_objs := []; projector_objs := [];
              algorithm_objs := [algo_cfg] |}) /\
  algo_cfg !! "VolumeDataId" = Some (VInt 7) /\
  algo_cfg !! "ReconstructionDataId" = None.
Proof. repeat split; vm_compute; reflexivity. Qed.

(** C4 at a single-precision, C-contiguous array with [allow_copy] set:
    [np.asarray] hands back the array itself, the engine is linked to the
    caller's storage, and what the engine then writes shows in the
    caller's array. *)
Theorem astra_data_allow_copy_links_original :
  let m := machine_with example_float32 in
  let m' := {| heap := [example_float32];
               data_objs := [{| data_dim := 2; data_kind := "-vol";
                                data_geom := ∅; data_storage := Linked 0 |}];
               projector_objs := []; algorithm_objs := [] |} in
  astra_data ∅ "volume" (DataNdarray 0) 2 true m = (Ok 0, m') /\
  host_values m' 0 = Some [1; 2; 3; 4]%float /\
  host_values (engine_write 0 [9; 9; 9; 9]%float m') 0 =
    Some [9; 9; 9; 9]%float.
Proof. repeat split. Qed.

(** With a double-precision array the copy is made: the engine is linked
    to a new array and its writes leave the caller's array alone. *)
Example astra_data_allow_copy_float64 :
  let m := machine_with example_float64 in
  let m' := {| heap := [example_float64;
                        {| dtype := Float32; arr_ndim := 2;
                           c_contiguous := true; aligned := true;
                           values := [1; 2; 3; 4]%float |}];
               data_objs := [{| data_dim := 2; data_kind := "-vol";
                                data_geom := ∅; data_storage := Linked 1 |}];
               projector_objs := []; algorithm_objs := [] |} in
  astra_data ∅ "volume" (DataNdarray 0) 2 true m = (Ok 0, m') /\
  host_values (engine_write 0 [9; 9; 9; 9]%float m') 0 =
    Some [1; 2; 3; 4]%float /\
  host_values (engine_write 0 [9; 9; 9; 9]%float m') 1 =
    Some [9; 9; 9; 9]%float.
Proof. repeat split. Qed.

(** ** Instances of the further volume-geometry properties *)

Lemma astra_volume_geometry_2d_witness :
  exists vol_geom,
    astra_volume_geometry "1.8" (pkg_supports_spec any_version)
      (IsDiscreteLp example_space2) = Ok vol_geom /\
    vol_geom !! "GridRowCount" = Some (VInt 16) /\
    vol_geom !! "GridColCount" = Some (VInt 8) /\
    exists window,
      vol_geom !! "option" = Some (VDict window) /\
      window !! "WindowMinX" = Some (VFloat 0%float) /\
      window !! "WindowMaxX" = Some (VFloat 1%float) /\
      window !! "WindowMinY" = Some (VFloat (-1)%float) /\
      window !! "WindowMaxY" = Some (VFloat 1%float).
Proof.
  destruct (astra_volume_geometry_2d "1.8" (pkg_supports_spec any_version)
              example_space2 eq_refl eq_refl
              (conj eq_refl (conj eq_refl eq_refl)) (or_introl eq_refl))
    as (s0 & s1 & a0 & a1 & b0 & b1 & vol_geom & window &
        Es & Ea & Eb & E & _ & Hr & Hc & _ & Ho & Hx0 & Hx1 & Hy0 & Hy1 & _).
  injection Es as <- <-. injection Ea as <- <-. injection Eb as <- <-.
  exists vol_geom. split_and!; try assumption.
  exists window. split_and!; assumption.
Defined.

Lemma astra_volume_geometry_ok_iff_witness :
  is_ok (astra_volume_geometry "1.7" (pkg_supports_spec no_version)
           (IsDiscreteLp example_space3_aniso)) = false /\
  is_ok (astra_volume_geometry "1.8" (pkg_supports_spec any_version)
           (IsDiscreteLp example_space3_aniso)) = true.
Proof.
  split.
  - rewrite (astra_volume_geometry_ok_iff "1.7" (pkg_supports_spec no_version)
               example_space3_aniso false false
               (conj eq_refl (conj eq_refl eq_refl)) eq_refl eq_refl).
    reflexivity.
  - rewrite (astra_volume_geometry_ok_iff "1.8"
               (pkg_supports_spec any_version)
               example_space3_aniso false true
               (conj eq_refl (conj eq_refl eq_refl)) eq_refl eq_refl).
    reflexivity.
Defined.

Lemma astra_volume_geometry_bad_dimension_witness :
  astra_volume_geometry "1.8" (pkg_supports_spec any_version)
    (IsDiscreteLp example_space4) =
    Err (Raise ValueError
           "{}-dimensional volume geometries not supported by ASTRA").
Proof.
  apply (astra_volume_geometry_bad_dimension "1.8"
           (pkg_supports_spec any_version) example_space4);
    [reflexivity | simpl; lia | simpl; lia].
Defined.

Lemma astra_volume_geometry_3d_anisotropic_witness :
  astra_volume_geometry "1.7" (pkg_supports_spec no_version)
    (IsDiscreteLp example_space3_aniso) =
    Err (Raise NotImplementedError
           "non-isotropic voxels in 3d volumes not supported by ASTRA v{}").
Proof.
  apply (astra_volume_geometry_3d_anisotropic "1.7"
           (pkg_supports_spec no_version) example_space3_aniso);
    reflexivity.
Defined.

(** ** Instances of the further vector-builder properties *)

Lemma vec_builders_shape_witness :
  has_shape 2 12
    [[0; 8; 7;  0; 0; -1;  0; 2; 0;  3; 0; 0];
     [0.5; 8; 7;  0.5; 0; -1;  0; 2; 0;  3; 0; 0]]%float /\
  has_shape 2 12
    [[-0; -0; -1;  0; 0; -1;  0; 2; 0;  3; 0; 0];
     [-0; -0; -1;  0.5; 0; -1;  0; 2; 0;  3; 0; 0]]%float /\
  has_shape 2 6
    [[7; 0;  -1; 0;  0; 2];
     [7; 0.5;  -1; 0.5;  0; 2]]%float.
Proof.
  split; [| split].
  - apply (proj1 (vec_builders_shape
                    (example_geometry3 DivergentBeamGeometry) _)).
    vm_compute. reflexivity.
  - apply (proj1 (proj2 (vec_builders_shape
                    (example_geometry3 ParallelBeamGeometry) _))).
    vm_compute. reflexivity.
  - apply (proj2 (proj2 (vec_builders_shape example_geometry2 _))).
    vm_compute. reflexivity.
Defined.

Lemma getitem_columns_newind_twice_witness :
  let vs := [[1; 2; 3; 4; 5; 6; 7; 8; 9; 10; 11; 12]]%float in
  has_shape 1 12 vs /\
  (vs' <- getitem_columns vs newind;; getitem_columns vs' newind) = Ok vs.
Proof.
  assert (H : has_shape 1 12
                [[1; 2; 3; 4; 5; 6; 7; 8; 9; 10; 11; 12]]%float)
    by (split; [reflexivity | repeat constructor]).
  split; [exact H |]. exact (getitem_columns_newind_twice 1 _ H).
Defined.

Lemma vec_builders_no_angles_witness :
  astra_conebeam_3d_geom_to_vec example_no_angles = Ok [] /\
  astra_parallel_3d_geom_to_vec example_no_angles = Ok [] /\
  astra_conebeam_2d_geom_to_vec example_no_angles = Ok [].
Proof. exact (vec_builders_no_angles example_no_angles eq_refl). Defined.

Lemma astra_conebeam_3d_bad_source_witness :
  length (src_position example_geometry2 0%float) = 2%nat /\
  astra_conebeam_3d_geom_to_vec example_geometry2 =
    Err (Raise ValueError "could not broadcast input array").
Proof.
  split; [reflexivity |].
  apply (astra_conebeam_3d_bad_source example_geometry2 0%float [0.5%float]);
    [reflexivity | simpl; lia | simpl; lia].
Defined.

(** ** Instances of the further projection-geometry properties *)

Lemma example_parallel2_flat : is_flat example_parallel2 = true.
Proof. reflexivity. Defined.

Lemma astra_projection_geometry_parallel2d_witness :
  exists proj_geom st',
    astra_projection_geometry (IsGeometry example_parallel2) empty_state =
      (Ok proj_geom, st') /\
    proj_geom !! "type" = Some (VStr "parallel") /\
    proj_geom !! "DetectorWidth" = Some (VFloat 2%float) /\
    proj_geom !! "DetectorCount" = Some (VInt 4) /\
    proj_geom !! "ProjectionAngles" = Some (VArray [0; 0.5; 1]%float) /\
    calls st' = ["create_proj_geom"].
Proof.
  eexists _, _. split.
  - exact (astra_projection_geometry_parallel2d example_parallel2
             empty_state 2%float [3%float]
             eq_refl eq_refl eq_refl eq_refl eq_refl eq_refl).
  - repeat split.
Defined.

Lemma astra_projection_geometry_fan2d_witness :
  exists proj_geom st',
    astra_projection_geometry (IsGeometry example_geometry2) empty_state =
      (Ok proj_geom, st') /\
    proj_geom !! "type" = Some (VStr "fanflat_vec") /\
    proj_geom !! "DetectorCount" = Some (VInt 4) /\
    calls st' = ["astra_conebeam_2d_geom_to_vec"; "create_proj_geom"].
Proof.
  eexists _, _. split.
  - exact (astra_projection_geometry_fan2d example_geometry2 empty_state
             eq_refl eq_refl eq_refl eq_refl eq_refl example_fan_wf).
  - repeat split.
Defined.

Lemma astra_projection_geometry_cache_frame_witness :
  implementation_cache
    (snd (astra_projection_geometry
            (IsGeometry (example_geometry3 ParallelBeamGeometry))
            other_backend_state)) !! "skimage" = Some example_descriptor.
Proof.
  destruct (astra_projection_geometry
              (IsGeometry (example_geometry3 ParallelBeamGeometry))
              other_backend_state) as [r st'] eqn:E.
  destruct (astra_projection_geometry_cache_frame _ _ _ _ E) as (H & _ & _).
  simpl. rewrite H; [reflexivity | discriminate].
Defined.


(** ** Instances of the projector properties *)

Lemma projector_tables_complete_witness :
  (by_interp <- dict_getitem type_map_cpu "cone_vec";;
   dict_getitem by_interp "linear") = Ok "linearcone" /\
  dict_getitem type_map_cuda "cone_vec" = Ok "cuda3d".
Proof.
  exact (projector_tables_complete "cone_vec" "linear" eq_refl eq_refl).
Defined.

Lemma astra_projector_ok_witness :
  astra_projector "1.8" (pkg_supports_spec any_version)
    "linear" ∅ fan_descriptor 2 "CPU" empty_machine =
    (Ok 0, with_projector empty_machine 2
             (projector_cfg "line_fanflat" ∅ fan_descriptor false)) /\
  astra_projector "1.8" (pkg_supports_spec any_version)
    "nearest" ∅ cone_descriptor 3 "cuda" empty_machine =
    (Ok 0, with_projector empty_machine 3
             (projector_cfg "cuda3d" ∅ cone_descriptor true)).
Proof.
  split.
  - apply (astra_projector_ok "1.8" (pkg_supports_spec any_version)
             "linear" ∅ fan_descriptor 2 "CPU" "fanflat_vec" false
             empty_machine);
      [reflexivity | left; reflexivity | reflexivity | reflexivity
      | intros [H _]; discriminate H | intros H; discriminate H].
  - apply (astra_projector_ok "1.8" (pkg_supports_spec any_version)
             "nearest" ∅ cone_descriptor 3 "cuda" "cone_vec" true
             empty_machine);
      [reflexivity | right; reflexivity | reflexivity | reflexivity
      | intros [_ H]; discriminate H | intros _; reflexivity].
Defined.

Lemma astra_projector_rejects_witness :
  astra_projector "1.8" (pkg_supports_spec any_version)
    "cubic" ∅ fan_descriptor 2 "cpu" empty_machine =
    (Err (Raise ValueError "`vol_interp` '{}' not understood"),
     empty_machine) /\
  astra_projector "1.8" (pkg_supports_spec any_version)
    "linear" ∅ fan_descriptor 2 "opencl" empty_machine =
    (Err (Raise ValueError "`impl` '{}' not understood"), empty_machine) /\
  astra_projector "1.8" (pkg_supports_spec any_version)
    "linear" ∅ ∅ 2 "cpu" empty_machine =
    (Err (Raise ValueError "invalid projection geometry dict {}"),
     empty_machine) /\
  astra_projector "1.8" (pkg_supports_spec any_version)
    "linear" ∅ odd_descriptor 3 "CUDA" empty_machine =
    (Err (Raise ValueError "invalid geometry type {!r}"), empty_machine) /\
  astra_projector "1.8" (pkg_supports_spec any_version)
    "nearest" ∅ odd_descriptor 2 "cpu" empty_machine =
    (Err (Raise ValueError "invalid geometry type {!r}"), empty_machine) /\
  astra_projector "1.8" (pkg_supports_spec any_version)
    "nearest" ∅ (<["type" := VInt 3]> ∅) 2 "cpu" empty_machine =
    (Err (Raise ValueError "invalid geometry type {!r}"), empty_machine).
Proof.
  split; [| split; [| split; [| split; [| split]]]].
  - apply (proj1 (astra_projector_rejects "1.8"
                    (pkg_supports_spec any_version)
                    "cubic" ∅ fan_descriptor 2 "cpu" empty_machine)).
    reflexivity.
  - apply (proj1 (proj2 (astra_projector_rejects "1.8"
                    (pkg_supports_spec any_version)
                    "linear" ∅ fan_descriptor 2 "opencl" empty_machine)));
      reflexivity.
  - apply (proj1 (proj2 (proj2 (astra_projector_rejects "1.8"
                    (pkg_supports_spec any_version)
                    "linear" ∅ ∅ 2 "cpu" empty_machine))));
      reflexivity.
  - apply (proj2 (proj2 (proj2 (astra_projector_rejects "1.8"
                    (pkg_supports_spec any_version)
                    "linear" ∅ odd_descriptor 3 "CUDA" empty_machine)))
             (VStr "helical"));
      [reflexivity | reflexivity | intros [_ H]; discriminate H
      | reflexivity | intros pt [= <-]; reflexivity].
  - apply (proj2 (proj2 (proj2 (astra_projector_rejects "1.8"
                    (pkg_supports_spec any_version)
                    "nearest" ∅ odd_descriptor 2 "cpu" empty_machine)))
             (VStr "helical"));
      [reflexivity | reflexivity | intros [H _]; discriminate H
      | reflexivity | intros pt [= <-]; reflexivity].
  - apply (proj2 (proj2 (proj2 (astra_projector_rejects "1.8"
                    (pkg_supports_spec any_version)
                    "nearest" ∅ (<["type" := VInt 3]> ∅) 2 "cpu"
                    empty_machine)))
             (VInt 3));
      [reflexivity | reflexivity | intros [H _]; discriminate H
      | reflexivity | intros pt H; discriminate H].
Defined.

Lemma astra_projector_failure_witness :
  astra_projector "1.8" (pkg_supports_spec any_version)
    "linear" ∅ odd_descriptor 3 "cuda" (machine_with example_float32) =
    (Err (Raise ValueError "invalid geometry type {!r}"),
     machine_with example_float32) /\
  machine_with example_float32 = machine_with example_float32.
Proof.
  split; [reflexivity |].
  exact (astra_projector_failure "1.8" (pkg_supports_spec any_version)
           "linear" ∅ odd_descriptor 3 "cuda"
           (machine_with example_float32) (machine_with example_float32)
           (Raise ValueError "invalid geometry type {!r}") eq_refl).
Defined.

(** ** Instances of the algorithm properties *)

Lemma astra_algorithm_ok_witness :
  exists algo_cfg,
    astra_algorithm (Interned "backward") 3 7 8 None "cuda" empty_machine =
      (Ok 0, with_algorithm empty_machine algo_cfg) /\
    algo_cfg !! "type" = Some (VStr "BP3D_CUDA") /\
    algo_cfg !! "ProjectorId" = Some VNone /\
    algo_cfg !! "ProjectionDataId" = Some (VInt 8) /\
    algo_cfg !! "ReconstructionDataId" = Some (VInt 7).
Proof.
  eexists. split.
  - apply (astra_algorithm_ok (Interned "backward") 3 7 8 None "cuda"
             empty_machine);
      [right; reflexivity | right; reflexivity | right; reflexivity
      | intros [_ H]; discriminate H | intros [_ H]; discriminate H].
  - repeat split.
Defined.

Lemma astra_algorithm_missing_projector_witness :
  astra_algorithm (Interned "forward") 2 7 8 None "cpu" empty_machine =
    (Err (Raise ValueError "'cpu' implementation requires projector ID"),
     empty_machine).
Proof.
  exact (astra_algorithm_missing_projector (Interned "forward") 7 8
           empty_machine (or_introl eq_refl)).
Defined.

Lemma astra_algorithm_rejects_witness :
  astra_algorithm (Interned "sideways") 2 7 8 (Some 9) "cuda" empty_machine =
    (Err (Raise ValueError "`direction` '{}' not understood"),
     empty_machine) /\
  astra_algorithm (Interned "forward") 4 7 8 (Some 9) "cuda" empty_machine =
    (Err (Raise ValueError "{}-dimensional projectors not supported"),
     empty_machine) /\
  astra_algorithm (Interned "forward") 2 7 8 (Some 9) "CUDA" empty_machine =
    (Err (Raise ValueError "`impl` type '{}' not understood"),
     empty_machine).
Proof.
  split; [| split].
  - apply (proj1 (astra_algorithm_rejects (Interned "sideways") 2 7 8
                    (Some 9) "cuda" empty_machine)); discriminate.
  - apply (proj1 (proj2 (astra_algorithm_rejects (Interned "forward") 4 7 8
                    (Some 9) "cuda" empty_machine)));
      [left; reflexivity | lia | lia].
  - apply (proj2 (proj2 (astra_algorithm_rejects (Interned "forward") 2 7 8
                    (Some 9) "CUDA" empty_machine)));
      [left; reflexivity | left; reflexivity | discriminate | discriminate].
Defined.

Lemma astra_algorithm_failure_witness :
  astra_algorithm (Interned "forward") 3 7 8 (Some 9) "cpu"
    (machine_with example_float32) =
    (Err (Raise NotImplementedError
            "3d algorithms for CPU not supported by ASTRA"),
     machine_with example_float32) /\
  machine_with example_float32 = machine_with example_float32.
Proof.
  split; [reflexivity |].
  exact (astra_algorithm_failure (Interned "forward") 3 7 8 (Some 9) "cpu"
           (machine_with example_float32) (machine_with example_float32)
           (Raise NotImplementedError
              "3d algorithms for CPU not supported by ASTRA") eq_refl).
Defined.

Lemma astra_algorithm_backward_witness :
  exists algo_cfg,
    algorithm_objs
      (snd (astra_algorithm (Allocated 5 "backward") 2 7 8 (Some 9) "cpu"
              empty_machine)) = [algo_cfg] /\
    algo_cfg !! "ReconstructionDataId" = Some (VInt 7) /\
    algo_cfg !! "VolumeDataId" = None.
Proof.
  assert (Hok : is_ok (fst (astra_algorithm (Allocated 5 "backward") 2 7 8
                              (Some 9) "cpu" empty_machine)) = true)
    by (vm_compute; reflexivity).
  destruct (astra_algorithm (Allocated 5 "backward") 2 7 8 (Some 9) "cpu"
              empty_machine) as [[h | e] m'] eqn:E; [| discriminate Hok].
  destruct (astra_algorithm_backward (Allocated 5 "backward") _ _ _ _ _ _ _ _
              eq_refl E)
    as (algo_cfg & Hobjs & Hr & Hv).
  exists algo_cfg. simpl. rewrite Hobjs. repeat split; assumption.
Defined.


(** ** Instances of the data properties *)

Lemma astra_data_failure_witness :
  astra_data ∅ "volume" (DataNdarray 0) 2 false
    (machine_with example_float64) =
    (Err (Raise ValueError "numpy array should be float32"),
     machine_with example_float64) /\
  machine_with example_float64 = machine_with example_float64.
Proof.
  split; [reflexivity |].
  exact (astra_data_failure ∅ "volume" (DataNdarray 0) 2 false
           (machine_with example_float64) (machine_with example_float64)
           (Raise ValueError "numpy array should be float32") eq_refl).
Defined.

Lemma astra_data_ndim_ignored_witness :
  astra_data ∅ "volume" (DataNdarray 0) 3 false
    (machine_with example_float32) =
  astra_data ∅ "volume" (DataNdarray 0) 7 false
    (machine_with example_float32).
Proof.
  apply (astra_data_ndim_ignored ∅ "volume" (DataNdarray 0) 3 7 false
           (machine_with example_float32)).
  discriminate.
Defined.

Lemma astra_data_create_witness :
  astra_data cone_descriptor "projection" DataNone 3 false empty_machine =
    (Ok 0, with_data empty_machine
             {| data_dim := 3; data_kind := "-sino";
                data_geom := cone_descriptor; data_storage := Owned |}).
Proof.
  apply (astra_data_create cone_descriptor "projection" 3 false
           empty_machine); right; reflexivity.
Defined.

Lemma astra_data_zero_copy_witness :
  astra_data ∅ "volume" (DataLpElement "numpy" 0) 3 false
    (machine_with example_float32) =
    (Ok 0, with_data (machine_with example_float32)
             {| data_dim := 2; data_kind := "-vol";
                data_geom := ∅; data_storage := Linked 0 |}).
Proof.
  apply (astra_data_zero_copy ∅ "volume" (DataLpElement "numpy" 0) 0
           example_float32 3 (machine_with example_float32));
    try reflexivity; [right | left | left]; reflexivity.
Defined.

Lemma astra_data_copy_protects_witness :
  exists m',
    astra_data ∅ "volume" (DataNdarray 0) 2 true
      (machine_with example_float64) = (Ok 0, m') /\
    heap m' !! 0%nat = Some example_float64 /\
    heap (engine_write 0 [9; 9; 9; 9]%float m') !! 0%nat =
      Some example_float64.
Proof.
  destruct (astra_data_copy_protects ∅ "volume" 0 example_float64 2
              (machine_with example_float64) [9; 9; 9; 9]%float
              eq_refl eq_refl (or_introl eq_refl) (or_introl eq_refl))
    as (m' & copy & E & _ & _ & _ & _ & Hkeep & Hwrite).
  exists m'. repeat split; assumption.
Defined.

Lemma astra_data_rejects_witness :
  astra_data ∅ "sinogram" DataNone 2 false empty_machine =
    (Err (Raise ValueError "`datatype` {!r} not understood"),
     empty_machine) /\
  astra_data ∅ "sinogram" (DataNdarray 0) 2 true
    (machine_with example_float32) =
    (Err (Raise ValueError "`datatype` {!r} not understood"),
     machine_with example_float32) /\
  astra_data ∅ "volume" DataNone 4 false empty_machine =
    (Err (Raise ValueError "{}-dimensional data structures not supported"),
     empty_machine) /\
  astra_data ∅ "volume" (DataNdarray 0) 2 true
    (machine_with example_vector) =
    (Err (Raise ValueError "{}-dimensional data structures not supported"),
     machine_with example_vector) /\
  astra_data ∅ "volume" (DataLpElement "cuda" 0) 2 false
    (machine_with example_float32) =
    (Err (Raise NotImplementedError
       "ASTRA supports data wrapping only for `numpy.ndarray` instances, got {!r}"),
     machine_with example_float32).
Proof.
  split; [| split; [| split; [| split]]].
  - apply (proj1 (proj2 (astra_data_rejects ∅ "sinogram" 2 false
                           empty_machine)) DataNone 2);
      [reflexivity | discriminate | discriminate].
  - apply (proj1 (proj2 (astra_data_rejects ∅ "sinogram" 2 true
                           (machine_with example_float32)))
             (DataNdarray 0) 2);
      [reflexivity | discriminate | discriminate].
  - apply (proj1 (proj2 (proj2 (astra_data_rejects ∅ "volume" 4 false
                                  empty_machine))) DataNone 4);
      [reflexivity | left; reflexivity | lia | lia].
  - apply (proj1 (proj2 (proj2 (astra_data_rejects ∅ "volume" 2 true
                                  (machine_with example_vector))))
             (DataNdarray 0) 1);
      [reflexivity | left; reflexivity | lia | lia].
  - apply (proj2 (proj2 (proj2 (astra_data_rejects ∅ "volume" 2 false
                                  (machine_with example_float32))))
             "cuda" 0%nat example_float32);
      [left; reflexivity | reflexivity | left; reflexivity | discriminate].
Defined.

(** ** Instances of the composition properties *)

Lemma astra_projection_geometry_type_witness :
  exists proj_geom,
    fst (astra_projection_geometry
           (IsGeometry (example_geometry3 DivergentBeamGeometry))
           empty_state) = Ok proj_geom /\
    proj_geom !! "type" = Some (VStr "cone_vec").
Proof.
  assert (Hok : is_ok (fst (astra_projection_geometry
                (IsGeometry (example_geometry3 DivergentBeamGeometry))
                empty_state)) = true) by (vm_compute; reflexivity).
  destruct (astra_projection_geometry
              (IsGeometry (example_geometry3 DivergentBeamGeometry))
              empty_state) as [[proj_geom | e] st'] eqn:E;
    [| discriminate Hok].
  destruct (astra_projection_geometry_type
              (example_geometry3 DivergentBeamGeometry) empty_state st'
              proj_geom eq_refl E) as (_ & _ & Ht).
  exists proj_geom. split; [reflexivity | exact Ht].
Defined.

Lemma projection_geometry_feeds_projector_witness :
  exists proj_geom,
    fst (astra_projection_geometry
           (IsGeometry (example_geometry3 DivergentBeamGeometry))
           empty_state) = Ok proj_geom /\
    astra_projector "1.8" (pkg_supports_spec any_version)
      "linear" ∅ proj_geom 3 "cuda" empty_machine =
      (Ok 0, with_projector empty_machine 3
               (projector_cfg "cuda3d" ∅ proj_geom true)).
Proof.
  assert (Hok : is_ok (fst (astra_projection_geometry
                (IsGeometry (example_geometry3 DivergentBeamGeometry))
                empty_state)) = true) by (vm_compute; reflexivity).
  destruct (astra_projection_geometry
              (IsGeometry (example_geometry3 DivergentBeamGeometry))
              empty_state) as [[proj_geom | e] st'] eqn:E;
    [| discriminate Hok].
  exists proj_geom. split; [reflexivity |].
  exact (projection_geometry_feeds_projector "1.8"
           (pkg_supports_spec any_version)
           (example_geometry3 DivergentBeamGeometry) empty_state st'
           proj_geom ∅ "linear" true empty_machine eq_refl E eq_refl eq_refl).
Defined.
